(** * Whipsaw turtle trader (elencus/fx): unit state tracker and order builder

    A shallow embedding of [whipsaw_0.1.py] and [whipsaw_0.2.py].

    Python numbers (JSON ints and floats alike) are exact rationals [Q];
    [round] is Python 3's round-half-to-even; a division by zero raises
    [ZeroDivisionError].  Dictionaries (the JSON store, keyword arguments)
    are [gmap string value].  A raised exception is an explicit [Raise]. *)

From Stdlib Require Import ZArith QArith Qround Qabs Lia Lqa.
From stdpp Require Import gmap strings pretty.

#[local] Set Warnings "-register-all".

(** ** Exceptions and results *)

Inductive exn :=
| AssertionError (msg : string)
| ZeroDivisionError
| KeyError (key : string)
| TypeError.

Inductive result (A : Type) :=
| Ok (a : A)
| Raise (e : exn).
Arguments Ok {A} a.
Arguments Raise {A} e.

#[global] Instance result_ret : MRet result := fun _ a => Ok a.
#[global] Instance result_bind : MBind result := fun _ _ f m =>
  match m with
  | Ok a => f a
  | Raise e => Raise e
  end.

(** [assert cond, msg] *)
Definition py_assert (cond : bool) (msg : string) : result unit :=
  if cond then Ok tt else Raise (AssertionError msg).

(** ** Numbers *)

Definition Qltb (x y : Q) : bool := negb (Qle_bool y x).

(** Python 3 [round(x)]: nearest integer, ties to the even one. *)
Definition py_round (x : Q) : Z :=
  let f := Qfloor x in
  match (x - inject_Z f ?= 1 # 2)%Q with
  | Lt => f
  | Gt => (f + 1)%Z
  | Eq => if Z.even f then f else (f + 1)%Z
  end.

(** Python [x / y] on numbers. *)
Definition py_div (x y : Q) : result Q :=
  if Qeq_bool y 0 then Raise ZeroDivisionError else Ok (x / y)%Q.

(** ** Python values carried by the JSON store and by keyword arguments *)

Inductive value :=
| VNone
| VBool (b : bool)
| VNum (q : Q)
| VStr (s : string)
| VDict (m : gmap string value).

(** Truth value of an object, as tested by [if v:]. *)
Definition truthy (v : value) : bool :=
  match v with
  | VNone => false
  | VBool b => b
  | VNum q => negb (Qeq_bool q 0)
  | VStr s => negb (String.eqb s "")
  | VDict m => negb (bool_decide (m = ∅))
  end.

(** [d[k]] *)
Definition getitem (d : value) (k : string) : result value :=
  match d with
  | VDict m => match m !! k with
               | Some v => Ok v
               | None => Raise (KeyError k)
               end
  | _ => Raise TypeError
  end.

(** [d[k] = v], giving the updated dictionary. *)
Definition setitem (d : value) (k : string) (v : value) : result value :=
  match d with
  | VDict m => Ok (VDict (<[k := v]> m))
  | _ => Raise TypeError
  end.

(** [kwargs.get(k, default)] *)
Definition kwargs_get (kwargs : gmap string value) (k : string) (dflt : value) : value :=
  default dflt (kwargs !! k).

(** A value used as a number in arithmetic ([bool] is a subtype of [int]). *)
Definition as_num (v : value) : result Q :=
  match v with
  | VNum q => Ok q
  | VBool b => Ok (if b then 1 else 0)%Q
  | _ => Raise TypeError
  end.

(** A value used as a string in [+] with a string. *)
Definition as_str (v : value) : result string :=
  match v with
  | VStr s => Ok s
  | _ => Raise TypeError
  end.

(** [v == "ERROR"] *)
Definition is_ERROR (v : value) : bool :=
  match v with
  | VStr s => String.eqb s "ERROR"
  | _ => false
  end.

(** [s[-3:]], [s[0:3]], [s[-1:]] and [sub in s] *)
Definition last3 (s : string) : string :=
  String.substring (String.length s - 3) 3 s.
Definition first3 (s : string) : string := String.substring 0 3 s.
Definition last1 (s : string) : string :=
  String.substring (String.length s - 1) 1 s.
Definition contains (sub s : string) : bool :=
  match String.index 0 sub s with
  | Some _ => true
  | None => false
  end.

(** ** The execution venue and the indicators, as the core reads them *)

(** One entry of [ib.accountValues()] / [ib.accountSummary()]; [av_value]
    is [float(v.value)]. *)
Record AccountValue := {
  av_tag : string;
  av_currency : string;
  av_value : Q
}.

(** The last row of the frame [get_indicators] returns. *)
Record Indicators := {
  atr : Q;
  long_dcl : Q;
  long_dcu : Q;
  short_dcl : Q;
  short_dcu : Q
}.

Record Venue := {
  accountValues : list AccountValue;
  accountSummary : list AccountValue;
  (** [ib.reqMktData(Forex(pair)).marketPrice()] *)
  marketPrice : string -> Q;
  (** last bar of [get_indicators(instrument)], by local symbol *)
  get_indicators : string -> Indicators
}.

(** An order built by [create_order] (0.2) / [place_order] (0.1). *)
Record PriceCondition := {
  isMore : value;
  price : value
}.

Record Order := {
  orderId : Z;
  action : value;
  orderType : value;
  totalQuantity : value;
  transmit : bool;
  tif : value;
  parentId : option value;
  orderRef : option value;
  conditions : list PriceCondition
}.

(** Order construction draws fresh ids from [ib.client.getReqId()]: a
    computation threads the next id and may raise. *)
Definition build (A : Type) : Type := Z -> result (A * Z).

#[global] Instance build_ret : MRet build := fun _ a n => Ok (a, n).
#[global] Instance build_bind : MBind build := fun _ _ f m n =>
  match m n with
  | Ok (a, n') => f a n'
  | Raise e => Raise e
  end.

Definition getReqId : build Z := fun n => Ok (n, (n + 1)%Z).
Definition lift {A} (r : result A) : build A := fun n =>
  match r with
  | Ok a => Ok (a, n)
  | Raise e => Raise e
  end.

(** ** Functions the two revisions share verbatim *)

(** [get_available_funds]: the first [AvailableFunds] entry, else 0. *)
Fixpoint first_available_funds (account_values : list AccountValue) : Q :=
  match account_values with
  | [] => 0
  | a :: rest =>
      if String.eqb (av_tag a) "AvailableFunds" then av_value a
      else first_available_funds rest
  end.
Definition get_available_funds (ib : Venue) : Q :=
  first_available_funds (accountValues ib).

(** [get_cash_balance]: the first [CashBalance] entry in the instrument's
    own currency ([localSymbol[0:3]]), else 0. *)
Fixpoint first_cash_balance (ccy : string) (account_values : list AccountValue) : Q :=
  match account_values with
  | [] => 0
  | a :: rest =>
      if String.eqb (av_tag a) "CashBalance" && String.eqb (av_currency a) ccy
      then av_value a
      else first_cash_balance ccy rest
  end.
Definition get_cash_balance (ib : Venue) (localSymbol : string) : Q :=
  first_cash_balance (first3 localSymbol) (accountValues ib).

(** The loop [for v in accountValues: if v.tag == 'AvailableFunds': base =
    v.currency], starting from the empty string: the last match wins. *)
Definition account_base (ib : Venue) : string :=
  fold_left (fun base v =>
               if String.eqb (av_tag v) "AvailableFunds" then av_currency v else base)
            (accountValues ib) "".

Definition valid_symbol (localSymbol : string) : bool :=
  String.eqb localSymbol "GBP.JPY" || String.eqb localSymbol "AUD.CAD"
  || String.eqb localSymbol "EUR.USD".

(** [Forex(pair=pair, ...)], the contract constructor of ib_insync that
    [get_base_exchange] calls on the pair before it asks for the price:
    [if pair: assert len(pair) == 6], an assertion without a message. *)
Definition Forex (pair : string) : result unit :=
  if String.eqb pair "" then Ok tt
  else py_assert (String.length pair =? 6)%nat "".

Definition get_base_exchange (ib : Venue) (localSymbol : string) : result Q :=
  _ ← py_assert (valid_symbol localSymbol) "Invalid Currency!";
  let base := account_base ib in
  let quote := last3 localSymbol in
  if String.eqb base quote then Ok 1%Q
  else if negb (String.eqb quote "USD") then
    let pair := base +:+ quote in
    _ ← Forex pair;
    py_div 1 (marketPrice ib pair)
  else
    let pair := quote +:+ base in
    _ ← Forex pair;
    Ok (marketPrice ib pair).

(** [increment * round(value / increment)], [None] for an unknown pair. *)
Definition price_increment (localSymbol : string) : option Q :=
  if String.eqb localSymbol "EUR.USD" then Some (5 # 100000)%Q
  else if String.eqb localSymbol "GBP.JPY" then Some (5 # 1000)%Q
  else if String.eqb localSymbol "AUD.CAD" then Some (5 # 100000)%Q
  else None.

Definition adjust_for_price_increments (localSymbol : string) (v : Q) : value :=
  match price_increment localSymbol with
  | Some increment => VNum (increment * inject_Z (py_round (v / increment)))%Q
  | None => VNone
  end.

Definition get_atr_multiple (ib : Venue) (localSymbol : string) (multiplier : Q) : value :=
  let volatility := atr (get_indicators ib localSymbol) in
  adjust_for_price_increments localSymbol (multiplier * volatility)%Q.

(** [set_position_size]: [sl_size] is whatever the caller passes. *)
Definition set_position_size (ib : Venue) (localSymbol : string) (sl_size : value)
  : result Z :=
  let available_funds := get_available_funds ib in
  let equity_at_risk := (available_funds * (5 # 1000))%Q in
  let base := account_base ib in
  if String.eqb base (last3 localSymbol) then
    sl ← as_num sl_size;
    q ← py_div equity_at_risk sl;
    Ok (py_round q)
  else
    fx ← get_base_exchange ib localSymbol;
    inv ← py_div 1 fx;
    sl ← as_num sl_size;
    q ← py_div (inv * equity_at_risk)%Q sl;
    Ok (py_round q).

(** [create_order] (0.2), [place_order] (0.1): same body.  The positional
    defaults [tif="GTC"], [total_quantity=0], [transmit=False] are filled in
    by the callers below when they omit them. *)
Definition create_order (order_id : Z) (action order_type tif total_quantity : value)
    (transmit : bool) (kwargs : gmap string value) : Order :=
  let is_more := kwargs_get kwargs "is_more" (VStr "ERROR") in
  let price_condition := kwargs_get kwargs "price_condition" (VStr "ERROR") in
  let parent_id := kwargs_get kwargs "parent_id" (VStr "ERROR") in
  let order_ref := kwargs_get kwargs "order_ref" (VStr "ERROR") in
  {| orderId := order_id;
     action := action;
     orderType := order_type;
     totalQuantity := total_quantity;
     transmit := transmit;
     tif := tif;
     parentId := if is_ERROR parent_id then None else Some parent_id;
     orderRef := if is_ERROR order_ref then None else Some order_ref;
     conditions :=
       if negb (is_ERROR price_condition) && negb (is_ERROR is_more)
       then [ {| isMore := is_more; price := price_condition |} ]
       else [] |}.

(** A dictionary literal. *)
Definition dict (items : list (string * value)) : value :=
  VDict (list_to_map items).

(** Iterating a value with [for k in v]: the keys of a dictionary, the
    characters of a string; other values are not iterable. *)
Fixpoint chars (s : string) : list string :=
  match s with
  | EmptyString => []
  | String c rest => String c EmptyString :: chars rest
  end.
Definition py_iter (v : value) : result (list string) :=
  match v with
  | VDict m => Ok (map_to_list m).*1
  | VStr s => Ok (chars s)
  | _ => Raise TypeError
  end.

(** The integers CPython keeps as single objects: -5 to 256.  A number of
    the store is a rational here, so a whole number in that range is read
    as the integer [json] writes without a decimal point. *)
Definition small_int (q : Q) : bool :=
  Qeq_bool q (inject_Z (Qfloor q)) && (-5 <=? Qfloor q)%Z && (Qfloor q <=? 256)%Z.

(** [a is b] for two objects loaded from the file, as CPython decides it:
    [None], [True] and [False] are singletons, and so are the empty
    string (what [clear_unit_info_from_json] writes), the one-character
    strings and the small integers; two longer strings, two other numbers
    or two dictionaries parsed from the file are distinct objects even
    when equal, and objects of different types are never the same. *)
Definition py_is (a b : value) : bool :=
  match a, b with
  | VNone, VNone => true
  | VBool x, VBool y => Bool.eqb x y
  | VNum x, VNum y => Qeq_bool x y && small_int x
  | VStr x, VStr y => String.eqb x y && (String.length x <=? 1)%nat
  | _, _ => false
  end.

(** [a - b], [a + b] and [v == 0] on values. *)
Definition value_sub (a b : value) : result value :=
  a ← as_num a; b ← as_num b; Ok (VNum (a - b)%Q).
Definition value_add (a b : value) : result value :=
  a ← as_num a; b ← as_num b; Ok (VNum (a + b)%Q).
Definition eq_zero (v : value) : bool :=
  match v with
  | VNum q => Qeq_bool q 0
  | VBool b => negb b
  | _ => false
  end.

(** One entry of [ib.openTrades()]: the contract's local symbol and the order. *)
Record Trade := {
  trade_symbol : string;
  trade_order : Order
}.

(** A call of [ib.oneCancelsAll(orders, ocaGroup, ocaType)]. *)
Record OcaCall := {
  oca_orders : list Order;
  ocaGroup : string;
  ocaType : Z
}.

(** What a branch of [run] asks of the venue, in the order it asks. *)
Inductive event :=
| CancelOrder (o : Order)
| OneCancelsAll (c : OcaCall)
| PlaceOrder (localSymbol : string) (o : Order).

(** How a branch of [run] ends: normally, with the store, the next request
    id and the venue calls made; or with an exception, with the store and
    the calls made up to it. *)
Inductive outcome :=
| Done (store : value) (next_id : Z) (trace : list event)
| Failed (store : value) (trace : list event) (e : exn).

(** [get_open_trades]: the open trades of the instrument, in venue order. *)
Definition get_open_trades (open_trades : list Trade) (localSymbol : string) : list Trade :=
  filter (fun t => String.eqb (trade_symbol t) localSymbol = true) open_trades.

(** ** whipsaw_0.2.py *)
Module V02.

(** [get_max_equity_at_risk]: the last BASE/CashBalance summary entry wins. *)
Definition get_max_equity_at_risk (ib : Venue) (multiplier : Q) : Q :=
  fold_left (fun max_equity_at_risk v =>
               if String.eqb (av_currency v) "BASE" && String.eqb (av_tag v) "CashBalance"
               then (av_value v * multiplier)%Q else max_equity_at_risk)
            (accountSummary ib) 0%Q.

(** [run], lines 71-74: the two direction flags. *)
Definition is_long (current_unit_size : Q) : bool := Qltb 100 current_unit_size.
Definition is_short (current_unit_size : Q) : bool := Qltb current_unit_size (-100).

Inductive direction := Flat | Long | Short.

(** The branch a round of [run] takes on its two flags: [if not is_long
    and not is_short] is the flat case, then [if is_long ... elif
    is_short]. *)
Definition branch_of (is_long is_short : bool) : direction :=
  if negb is_long && negb is_short then Flat
  else if is_long then Long
  else Short.

(** The branch [run] takes on the flags of a number compared with the
    band. *)
Definition classify (current_unit_size : Q) : direction :=
  branch_of (is_long current_unit_size) (is_short current_unit_size).

Record Setup := {
  max_unit_size : Q;
  current_unit_size : Q;
  setup_is_long : bool;
  setup_is_short : bool;
  unit_full : bool
}.

(** [run], lines 52-77: the per-instrument variable setup. *)
Definition initial_variable_setup (ib : Venue) (localSymbol : string) : result Setup :=
  let max_equity_at_risk := get_max_equity_at_risk ib (2 # 100) in
  base_exchange ← get_base_exchange ib localSymbol;
  sl_size ← as_num (get_atr_multiple ib localSymbol (1 # 2));
  max_unit_size ← py_div max_equity_at_risk (sl_size * base_exchange);
  let current_unit_size := (get_cash_balance ib localSymbol * base_exchange)%Q in
  let long := is_long current_unit_size in
  let short := is_short current_unit_size in
  Ok {| max_unit_size := max_unit_size;
        current_unit_size := current_unit_size;
        setup_is_long := long;
        setup_is_short := short;
        unit_full :=
          negb (Qltb (Qabs current_unit_size) (Qabs max_unit_size) && (long || short)) |}.

(** The branch the round takes after the setup. *)
Definition branch (s : Setup) : direction :=
  branch_of (setup_is_long s) (setup_is_short s).

(** The messages of the two assertions on the remaining orders.  The
    second literal is continued with a backslash inside its quotes, so the
    21 spaces that indent its second line are part of the message. *)
Definition msg_lt4 : string := "Remaining orders in unit must be < 4!".
Definition msg_gt0 : string :=
  "Remaining orders in unit <= 0,                      but unit found to be not full!".

(** [run], lines 185-195, on the two numbers read from the store. *)
Definition remaining_orders (max_unit_size current_unit_size : Q) : result Z :=
  max_entry_size ← py_div max_unit_size 4;
  q ← py_div (max_unit_size - current_unit_size) max_entry_size;
  let remaining_orders := py_round q in
  _ ← py_assert (remaining_orders <? 4)%Z msg_lt4;
  _ ← py_assert (0 <? remaining_orders)%Z msg_gt0;
  Ok remaining_orders.

(** The same lines, reading [unit_data["unitInfo"]]. *)
Definition remaining_orders_of (unit_data : value) : result Z :=
  unit_info ← getitem unit_data "unitInfo";
  current_unit_size ← getitem unit_info "currentUnitSize";
  max_unit_size ← getitem unit_info "maxUnitSize";
  mx ← as_num max_unit_size;
  cur ← as_num current_unit_size;
  remaining_orders mx cur.

(** [run], lines 257-263: an [if]/[elif]/[elif] chain. *)
Definition compound_order_json_tags (remaining_orders : Z) : list string :=
  if (1 <=? remaining_orders)%Z then ["entryB"]
  else if (2 <=? remaining_orders)%Z then ["entryC"]
  else if (remaining_orders =? 3)%Z then ["entryD"]
  else [].

(** One round of the loop of [generate_compound_entry_info]. *)
Definition compound_entry (ib : Venue) (localSymbol : string) (unit_data : value)
    (sl_size : value) (total_quantity : Z) (is_long is_short : value) (r : string)
  : result value :=
  _ ← py_assert (String.eqb r "entryB" || String.eqb r "entryC" || String.eqb r "entryD")
        "Invalid compound order json tag!";
  entry_info ← getitem unit_data "entryInfo";
  '(offset, last_entry) ←
    (if String.eqb r "entryB" then e ← getitem entry_info "entryA"; Ok (1%Q, e)
     else if String.eqb r "entryC" then e ← getitem entry_info "entryB"; Ok (2%Q, e)
     else e ← getitem entry_info "entryC"; Ok (3%Q, e));
  '(price_condition, sl_price, action, is_more) ←
    (if truthy is_long then
       last ← getitem last_entry "priceCondition";
       step ← as_num (get_atr_multiple ib localSymbol (1 # 2));
       last ← as_num last;
       let price_condition := (last + offset * step)%Q in
       sl ← as_num sl_size;
       Ok (VNum price_condition, VNum (price_condition - sl)%Q, VStr "BUY", VBool true)
     else if truthy is_short then
       last ← getitem last_entry "priceCondition";
       last ← as_num last;
       step ← as_num (get_atr_multiple ib localSymbol (1 # 2));
       let price_condition := (- last - offset * step)%Q in
       sl ← as_num sl_size;
       Ok (VNum price_condition, VNum (price_condition + sl)%Q, VStr "SELL", VBool false)
     else Ok (VNone, VNone, VNone, VNone));
  Ok (dict [("action", action);
            ("orderType", VStr "MKT");
            ("tif", VStr "GTC");
            ("totalQuantity", VNum (inject_Z total_quantity));
            ("transmit", VBool false);
            ("priceCondition", price_condition);
            ("orderRef", VStr (localSymbol +:+ r));
            ("isMore", is_more);
            ("slPrice", sl_price)]).

Fixpoint compound_entries (ib : Venue) (localSymbol : string) (unit_data : value)
    (sl_size : value) (total_quantity : Z) (is_long is_short : value)
    (tags : list string) (compound_orders : gmap string value)
  : result (gmap string value) :=
  match tags with
  | [] => Ok compound_orders
  | r :: rest =>
      e ← compound_entry ib localSymbol unit_data sl_size total_quantity is_long is_short r;
      compound_entries ib localSymbol unit_data sl_size total_quantity is_long is_short
        rest (<[r := e]> compound_orders)
  end.

Definition generate_compound_entry_info (ib : Venue) (store : value) (localSymbol : string)
    (compound_order_json_tags : list string) : result (gmap string value) :=
  unit_data ← getitem store localSymbol;
  let sl_size := get_atr_multiple ib localSymbol (1 # 2) in
  unit_info ← getitem unit_data "unitInfo";
  mx ← getitem unit_info "maxUnitSize";
  mx ← as_num mx;
  let total_quantity := py_round (mx / 4) in
  is_long ← getitem unit_info "isLong";
  is_short ← getitem unit_info "isShort";
  _ ← py_assert (negb (py_is is_long is_short))
        "Unit cannot be both long and short simultaneously!";
  compound_entries ib localSymbol unit_data sl_size total_quantity is_long is_short
    compound_order_json_tags ∅.

(** [if v: unit_info[k] = v] *)
Definition set_if_truthy (unit_info : value) (k : string) (v : value) : result value :=
  if truthy v then setitem unit_info k v else Ok unit_info.

(** [save_unit_info_to_json]; the result is the content of the file after
    [save_data_to_json]. *)
Definition save_unit_info_to_json (store : value) (local_symbol : string)
    (kwargs : gmap string value) : result value :=
  let max_unit_size := kwargs_get kwargs "max_unit_size" (VBool false) in
  let current_unit_size := kwargs_get kwargs "current_unit_size" (VBool false) in
  let exit_all_price := kwargs_get kwargs "exit_all_price" (VBool false) in
  let is_short := kwargs_get kwargs "is_short" (VBool false) in
  let is_long := kwargs_get kwargs "is_long" (VBool false) in
  let long_entry := kwargs_get kwargs "long_entry" (VBool false) in
  let short_entry := kwargs_get kwargs "short_entry" (VBool false) in
  let data_dict := store in
  unit_data ← getitem data_dict local_symbol;
  unit_info ← getitem unit_data "unitInfo";
  unit_info ← set_if_truthy unit_info "maxUnitSize" max_unit_size;
  unit_info ← set_if_truthy unit_info "currentUnitSize" current_unit_size;
  unit_info ← set_if_truthy unit_info "exitAllPrice" exit_all_price;
  unit_info ← set_if_truthy unit_info "isLong" is_long;
  unit_info ← set_if_truthy unit_info "isShort" is_short;
  unit_info ← set_if_truthy unit_info "longEntry" long_entry;
  unit_info ← set_if_truthy unit_info "shortEntry" short_entry;
  unit_data ← setitem unit_data "unitInfo" unit_info;
  setitem data_dict local_symbol unit_data.

(** The blank entry written by the clearing code of 0.2. *)
Definition blank_order : value :=
  dict [("action", VStr "");
        ("orderType", VStr "");
        ("tif", VStr "");
        ("totalQuantity", VNum 0);
        ("transmit", VBool false);
        ("priceCondition", VNum 0);
        ("orderRef", VStr "");
        ("isMore", VBool false);
        ("slPrice", VNum 0)].

Definition default_order_name_list : list string :=
  ["entryA"; "entryB"; "entryC"; "entryD"; "slA"; "slB"; "slC"; "slD"].

(** The inner loop of [clear_orders_from_json] over the keys of
    [entryInfo].  [order_data] is the loop variable: the assignment binds
    that local name to a fresh dictionary and leaves [data_dict] as it is;
    [save_data_to_json(data_dict)] then rewrites the file with it. *)
Fixpoint clear_matching (data_dict : value) (order_name : string)
    (keys : list string) (file : value) : value :=
  match keys with
  | [] => file
  | order_data :: rest =>
      if String.eqb order_data order_name then
        let order_data := blank_order in
        clear_matching data_dict order_name rest data_dict
      else clear_matching data_dict order_name rest file
  end.

Fixpoint clear_each (data_dict : value) (local_symbol : string)
    (order_name_list : list string) (file : value) : result value :=
  match order_name_list with
  | [] => Ok file
  | order_name :: rest =>
      unit_data ← getitem data_dict local_symbol;
      entry_info ← getitem unit_data "entryInfo";
      keys ← py_iter entry_info;
      clear_each data_dict local_symbol rest
        (clear_matching data_dict order_name keys file)
  end.

Definition clear_orders_from_json (store : value) (local_symbol : string)
    (order_name_list : list string) : result value :=
  let data_dict := store in
  clear_each data_dict local_symbol order_name_list store.

(** [not v] *)
Definition py_not (v : value) : value := VBool (negb (truthy v)).

(** [v == "s"] for a string literal. *)
Definition eq_str (v : value) (s : string) : bool :=
  match v with
  | VStr x => String.eqb x s
  | _ => false
  end.

(** [ref[-1:]] of a stored order reference. *)
Definition ref_suffix (v : value) : result string :=
  s ← as_str v; Ok (last1 s).

Record UnitLeg := {
  entry_order : Order;
  sl_order : Order;
  exit_order : Order
}.

(** The orders of a leg in the order the dictionary lists them. *)
Definition leg_orders (l : UnitLeg) : list Order :=
  [entry_order l; sl_order l; exit_order l].

Definition create_unit_leg (store : value) (localSymbol : string) (entry_json_id : string)
  : build UnitLeg :=
  data_dict ← lift (getitem store localSymbol);
  entry_data ← lift
    (if contains "long" entry_json_id then
       u ← getitem data_dict "unitInfo"; getitem u "longEntry"
     else if contains "short" entry_json_id then
       u ← getitem data_dict "unitInfo"; getitem u "shortEntry"
     else
       e ← getitem data_dict "entryInfo"; getitem e entry_json_id);
  entry_action ← lift (getitem entry_data "action");
  order_type ← lift (getitem entry_data "orderType");
  total_quantity ← lift (getitem entry_data "totalQuantity");
  entry_price_condition ← lift (getitem entry_data "priceCondition");
  sl_price_condition ← lift (getitem entry_data "slPrice");
  entry_order_ref ← lift (getitem entry_data "orderRef");
  suffix ← lift (ref_suffix entry_order_ref);
  let sl_order_ref := localSymbol +:+ "sl" +:+ suffix in
  let exit_order_ref := localSymbol +:+ "exit" +:+ suffix in
  unit_info ← lift (getitem data_dict "unitInfo");
  exit_price_condition ← lift (getitem unit_info "exitAllPrice");
  entry_is_more ← lift (getitem entry_data "isMore");
  let sl_is_more := py_not entry_is_more in
  let sl_action :=
    if eq_str entry_action "BUY" then "SELL"
    else if eq_str entry_action "SELL" then "BUY"
    else "" in
  id1 ← getReqId;
  let entry := create_order id1 entry_action order_type (VStr "GTC") total_quantity false
                 (list_to_map [("price_condition", entry_price_condition);
                               ("is_more", entry_is_more);
                               ("order_ref", entry_order_ref)]) in
  id2 ← getReqId;
  let sl := create_order id2 (VStr sl_action) order_type (VStr "GTC") total_quantity false
              (list_to_map [("price_condition", sl_price_condition);
                            ("is_more", sl_is_more);
                            ("order_ref", VStr sl_order_ref);
                            ("parent_id", VNum (inject_Z (orderId entry)))]) in
  id3 ← getReqId;
  let exit := create_order id3 (VStr sl_action) order_type (VStr "GTC") total_quantity true
                (list_to_map [("price_condition", exit_price_condition);
                              ("is_more", sl_is_more);
                              ("order_ref", VStr exit_order_ref);
                              ("parent_id", VNum (inject_Z (orderId entry)))]) in
  mret {| entry_order := entry; sl_order := sl; exit_order := exit |}.

(** [run], lines 269-273: the legs of every tag, flattened. *)
Fixpoint unit_legs (store : value) (localSymbol : string) (tags : list string)
  : build (list Order) :=
  match tags with
  | [] => mret []
  | t :: rest =>
      unit_leg ← create_unit_leg store localSymbol t;
      orders ← unit_legs store localSymbol rest;
      mret (leg_orders unit_leg ++ orders)
  end.

(** [run], steps (9) and (10): the tags, the compound entry information
    (computed and dropped: [run] does not bind the returned dictionary),
    and the orders built from what the store holds under each tag. *)
Definition create_compound_orders (ib : Venue) (store : value) (localSymbol : string)
    (remaining_orders : Z) : build (list Order) :=
  let compound_order_json_tags := compound_order_json_tags remaining_orders in
  _ ← lift (generate_compound_entry_info ib store localSymbol compound_order_json_tags);
  unit_legs store localSymbol compound_order_json_tags.

(** [run], lines 89 and 101-105: what the flat branch writes to the store. *)
Definition flat_branch_store (store : value) (local_symbol : string)
    (max_unit_size current_unit_size : Q) (long_entry short_entry : value)
  : result value :=
  store ← clear_orders_from_json store local_symbol default_order_name_list;
  save_unit_info_to_json store local_symbol
    (list_to_map [("max_unit_size", VNum max_unit_size);
                  ("current_unit_size", VNum current_unit_size);
                  ("long_entry", long_entry);
                  ("short_entry", short_entry)]).

(** [clear_unit_info_from_json] *)
Definition clear_unit_info_from_json (store : value) (local_symbol : string)
  : result value :=
  let data_dict := store in
  unit_data ← getitem data_dict local_symbol;
  unit_info ← getitem unit_data "unitInfo";
  unit_info ← setitem unit_info "maxUnitSize" (VNum 0);
  unit_info ← setitem unit_info "currentUnitSize" (VNum 0);
  unit_info ← setitem unit_info "isLong" (VStr "");
  unit_info ← setitem unit_info "isShort" (VStr "");
  unit_info ← setitem unit_info "longEntry" blank_order;
  unit_info ← setitem unit_info "shortEntry" blank_order;
  unit_data ← setitem unit_data "unitInfo" unit_info;
  setitem data_dict local_symbol unit_data.

(** [generate_initial_entry_info]: the dictionary with the keys
    "long_entry" and "short_entry". *)
Definition generate_initial_entry_info (ib : Venue) (localSymbol : string) : result value :=
  let indicators := get_indicators ib localSymbol in
  let sl_size := get_atr_multiple ib localSymbol (1 # 2) in
  total_quantity ← set_position_size ib localSymbol sl_size;
  let long_price_condition :=
    adjust_for_price_increments localSymbol (long_dcu indicators) in
  let short_price_condition :=
    adjust_for_price_increments localSymbol (long_dcl indicators) in
  long_sl_price ← value_sub long_price_condition sl_size;
  short_sl_price ← value_add short_price_condition sl_size;
  let long_entry :=
    dict [("action", VStr "BUY");
          ("orderType", VStr "MKT");
          ("tif", VStr "GTC");
          ("totalQuantity", VNum (inject_Z total_quantity));
          ("transmit", VBool false);
          ("priceCondition", long_price_condition);
          ("orderRef", VStr (localSymbol +:+ "entryA"));
          ("isMore", VBool true);
          ("slPrice", long_sl_price)] in
  let short_entry :=
    dict [("action", VStr "SELL");
          ("orderType", VStr "MKT");
          ("tif", VStr "GTC");
          ("totalQuantity", VNum (inject_Z total_quantity));
          ("transmit", VBool false);
          ("priceCondition", short_price_condition);
          ("orderRef", VStr (localSymbol +:+ "entryA"));
          ("isMore", VBool false);
          ("slPrice", short_sl_price)] in
  Ok (dict [("long_entry", long_entry); ("short_entry", short_entry)]).

(** [create_initial_entry_orders]: the six orders and the
    one-cancels-all call on the two entries, whose group name draws a
    request id of its own. *)
Definition create_initial_entry_orders (store : value) (localSymbol : string)
  : build (list Order * OcaCall) :=
  long_entry_attempts ← create_unit_leg store localSymbol "longEntry";
  short_entry_attempts ← create_unit_leg store localSymbol "shortEntry";
  id ← getReqId;
  let oca :=
    {| oca_orders := [entry_order long_entry_attempts; entry_order short_entry_attempts];
       ocaGroup := "OCA_" +:+ localSymbol +:+ pretty id;
       ocaType := 1 |} in
  mret (leg_orders long_entry_attempts ++ leg_orders short_entry_attempts, oca).

(** [run], lines 82-118: the flat branch. *)
Definition flat_branch (ib : Venue) (open_trades : list Trade) (store : value)
    (next_id : Z) (local_symbol : string) (max_unit_size current_unit_size : Q)
  : outcome :=
  match clear_orders_from_json store local_symbol default_order_name_list with
  | Raise e => Failed store [] e
  | Ok store =>
      let cancels :=
        map (fun o => CancelOrder (trade_order o)) (get_open_trades open_trades local_symbol) in
      match
        (initial_entry_info ← generate_initial_entry_info ib local_symbol;
         long_entry ← getitem initial_entry_info "long_entry";
         short_entry ← getitem initial_entry_info "short_entry";
         save_unit_info_to_json store local_symbol
           (list_to_map [("max_unit_size", VNum max_unit_size);
                         ("current_unit_size", VNum current_unit_size);
                         ("long_entry", long_entry);
                         ("short_entry", short_entry)]))
      with
      | Raise e => Failed store cancels e
      | Ok store =>
          match create_initial_entry_orders store local_symbol next_id with
          | Raise e => Failed store cancels e
          | Ok ((orders, oca), next_id) =>
              Done store next_id
                (cancels ++ OneCancelsAll oca :: map (PlaceOrder local_symbol) orders)
          end
      end
  end.

(** The nine keyword arguments of the call of [save_order_data_to_json]
    at line 161, evaluated in order. *)
Definition entry_a_arguments (entry_a : value) : result unit :=
  _ ← getitem entry_a "action";
  _ ← getitem entry_a "totalQuantity";
  _ ← getitem entry_a "orderRef";
  _ ← getitem entry_a "slPrice";
  _ ← getitem entry_a "orderType";
  _ ← getitem entry_a "tif";
  _ ← getitem entry_a "transmit";
  _ ← getitem entry_a "priceCondition";
  _ ← getitem entry_a "isMore";
  Ok tt.

(** A call that leaves out a required argument: its arguments are
    evaluated, which may raise, and then the call raises TypeError. *)
Definition call_raises (arguments : result unit) : exn :=
  match arguments with
  | Raise e => e
  | Ok _ => TypeError
  end.

(** [run], lines 120-179: the branch for a unit that is not full.  The call
    of [save_order_data_to_json] at line 161 leaves out the required
    [local_symbol] and the call of [get_open_trades] at line 179 the
    required [instrument], so the branch ends in an exception on every
    path: the result is the store it leaves and the exception. *)
Definition building_branch (ib : Venue) (store : value) (local_symbol : string)
    (current_unit_size : Q) (is_long is_short : bool) : value * exn :=
  let indicators := get_indicators ib local_symbol in
  let exit_all_price :=
    if is_long then adjust_for_price_increments local_symbol (short_dcl indicators)
    else if is_short then adjust_for_price_increments local_symbol (short_dcu indicators)
    else VNone in
  match
    (_ ← py_assert (negb (py_is exit_all_price VNone))
           "Exit all price for unit cannot be set to None!";
     save_unit_info_to_json store local_symbol
       (list_to_map [("current_unit_size", VNum current_unit_size);
                     ("is_short", VBool is_short);
                     ("is_long", VBool is_long);
                     ("exit_all_price", exit_all_price)]))
  with
  | Raise e => (store, e)
  | Ok store =>
      (store,
       call_raises
         (unit_data ← getitem store local_symbol;
          entry_info ← getitem unit_data "entryInfo";
          entry_a ← getitem entry_info "entryA";
          quantity ← getitem entry_a "totalQuantity";
          if eq_zero quantity then
            entry_a ← (if is_long then getitem unit_data "longEntry"
                       else getitem unit_data "shortEntry");
            entry_a_arguments entry_a
          else Ok tt))
  end.

(** One round of the loop of [run]: the setup, then the branch. *)
Definition body (ib : Venue) (open_trades : list Trade) (store : value) (next_id : Z)
    (localSymbol : string) : outcome :=
  match initial_variable_setup ib localSymbol with
  | Raise e => Failed store [] e
  | Ok s =>
      if negb (setup_is_long s) && negb (setup_is_short s) then
        flat_branch ib open_trades store next_id localSymbol
          (max_unit_size s) (current_unit_size s)
      else if negb (unit_full s) then
        let '(store, e) :=
          building_branch ib store localSymbol (current_unit_size s)
            (setup_is_long s) (setup_is_short s) in
        Failed store [] e
      else Done store next_id []
  end.

End V02.

(** ** whipsaw_0.1.py *)
Module V01.

(** The blank entry of [run], lines 100-109. *)
Definition blank_entry : value :=
  dict [("action", VStr "");
        ("orderType", VStr "");
        ("tif", VStr "");
        ("totalQuantity", VNum 0);
        ("transmit", VBool false);
        ("priceCondition", VNum 0);
        ("orderRef", VStr "");
        ("isMore", VBool true)].

(** [for entry in entry_dict[symbol]: entry_dict[symbol][entry] = {...}] *)
Fixpoint blank_all (unit_data : value) (keys : list string) : result value :=
  match keys with
  | [] => Ok unit_data
  | entry :: rest =>
      unit_data ← setitem unit_data entry blank_entry;
      blank_all unit_data rest
  end.

(** [run], lines 98-111: clearing the instrument's entries when flat. *)
Definition clear_json_data (store : value) (localSymbol : string) : result value :=
  let entry_dict := store in
  unit_data ← getitem entry_dict localSymbol;
  keys ← py_iter unit_data;
  unit_data ← blank_all unit_data keys;
  setitem entry_dict localSymbol unit_data.

(** [a - b * c] and [a + b * c] on values. *)
Definition sub_mul (a b c : value) : result value :=
  b ← as_num b; c ← as_num c; a ← as_num a; Ok (VNum (a - b * c)%Q).
Definition add_mul (a b c : value) : result value :=
  b ← as_num b; c ← as_num c; a ← as_num a; Ok (VNum (a + b * c)%Q).
Definition py_add (a b : value) : result value :=
  a ← as_num a; b ← as_num b; Ok (VNum (a + b)%Q).
Definition py_sub (a b : value) : result value :=
  a ← as_num a; b ← as_num b; Ok (VNum (a - b)%Q).

Definition place_order := create_order.

(** The keyword defaults both [go_short] and [go_long] evaluate on entry:
    the default of [sl_size] and of [total_quantity] is computed whether or
    not the keyword is passed. *)
Definition sizing_kwargs (ib : Venue) (localSymbol : string) (kwargs : gmap string value)
  : result (value * value) :=
  let sl_size := kwargs_get kwargs "sl_size" (get_atr_multiple ib localSymbol (1 # 2)) in
  position_size ← set_position_size ib localSymbol sl_size;
  let total_quantity :=
    kwargs_get kwargs "total_quantity" (VNum (inject_Z position_size)) in
  Ok (sl_size, total_quantity).

Definition go_short (ib : Venue) (localSymbol : string) (kwargs : gmap string value)
  : build (list Order) :=
  let offset := kwargs_get kwargs "offset" (VNum 0) in
  let last_fill_price := kwargs_get kwargs "last_fill_price" VNone in
  let is_exit_all := kwargs_get kwargs "is_exit_all" (VBool false) in
  let is_compound_order := kwargs_get kwargs "is_compound_order" (VBool false) in
  '(sl_size, total_quantity) ← lift (sizing_kwargs ib localSymbol kwargs);
  let indicators := get_indicators ib localSymbol in
  let long_term_low := adjust_for_price_increments localSymbol (long_dcl indicators) in
  short_exit_condition ← lift
    (sub_mul (adjust_for_price_increments localSymbol (short_dcu indicators))
             offset (get_atr_multiple ib localSymbol (1 # 2)));
  if truthy is_exit_all then
    id ← getReqId;
    mret [place_order id (VStr "BUY") (VStr "MKT") (VStr "GTC") total_quantity true
            (list_to_map [("price_condition", short_exit_condition);
                          ("is_more", VBool true);
                          ("order_ref", VStr (localSymbol +:+ "_short_exit_all"))])]
  else
    '(compound_order_ref, price_condition) ← lift
      (if truthy is_compound_order && truthy last_fill_price then
         p ← sub_mul last_fill_price offset (get_atr_multiple ib localSymbol (1 # 2));
         Ok ("_compound", p)
       else Ok ("", long_term_low));
    id1 ← getReqId;
    let short_entry :=
      place_order id1 (VStr "SELL") (VStr "MKT") (VStr "GTC") total_quantity false
        (list_to_map [("price_condition", price_condition);
                      ("is_more", VBool false);
                      ("order_ref",
                       VStr (localSymbol +:+ compound_order_ref +:+ "_short_entry"))]) in
    id2 ← getReqId;
    sl_price ← lift (py_add price_condition sl_size);
    let short_sl :=
      place_order id2 (VStr "BUY") (VStr "MKT") (VStr "GTC") total_quantity false
        (list_to_map [("parent_id", VNum (inject_Z (orderId short_entry)));
                      ("price_condition", sl_price);
                      ("is_more", VBool true);
                      ("order_ref",
                       VStr (localSymbol +:+ compound_order_ref +:+ "_short_sl"))]) in
    id3 ← getReqId;
    let short_exit :=
      place_order id3 (VStr "BUY") (VStr "MKT") (VStr "GTC") total_quantity true
        (list_to_map [("parent_id", VNum (inject_Z (orderId short_entry)));
                      ("price_condition", short_exit_condition);
                      ("is_more", VBool true);
                      ("order_ref",
                       VStr (localSymbol +:+ compound_order_ref +:+ "_short_exit"))]) in
    mret [short_entry; short_sl; short_exit].

Definition go_long (ib : Venue) (localSymbol : string) (kwargs : gmap string value)
  : build (list Order) :=
  let offset := kwargs_get kwargs "offset" (VNum 0) in
  let last_fill_price := kwargs_get kwargs "last_fill_price" VNone in
  '(sl_size, total_quantity) ← lift (sizing_kwargs ib localSymbol kwargs);
  let is_exit_all := kwargs_get kwargs "is_exit_all" (VBool false) in
  let is_compound_order := kwargs_get kwargs "is_compound_order" (VBool false) in
  let indicators := get_indicators ib localSymbol in
  let long_term_high := adjust_for_price_increments localSymbol (long_dcu indicators) in
  long_exit_condition ← lift
    (add_mul (adjust_for_price_increments localSymbol (short_dcl indicators))
             offset (get_atr_multiple ib localSymbol (1 # 2)));
  if truthy is_exit_all then
    id ← getReqId;
    mret [place_order id (VStr "SELL") (VStr "MKT") (VStr "GTC") total_quantity true
            (list_to_map [("is_more", VBool false);
                          ("price_condition", long_exit_condition);
                          ("order_ref", VStr (localSymbol +:+ "_long_exit_all"))])]
  else
    '(compound_order_ref, price_condition) ← lift
      (if truthy is_compound_order && truthy last_fill_price then
         p ← add_mul last_fill_price offset (get_atr_multiple ib localSymbol (1 # 2));
         Ok ("_compound", p)
       else Ok ("", long_term_high));
    id1 ← getReqId;
    let long_entry :=
      place_order id1 (VStr "BUY") (VStr "MKT") (VStr "GTC") total_quantity false
        (list_to_map [("price_condition", price_condition);
                      ("is_more", VBool true);
                      ("order_ref",
                       VStr (localSymbol +:+ compound_order_ref +:+ "_long_entry"))]) in
    id2 ← getReqId;
    sl_price ← lift (py_sub price_condition sl_size);
    let long_sl :=
      place_order id2 (VStr "SELL") (VStr "MKT") (VStr "GTC") total_quantity false
        (list_to_map [("parent_id", VNum (inject_Z (orderId long_entry)));
                      ("price_condition", sl_price);
                      ("is_more", VBool false);
                      ("order_ref",
                       VStr (localSymbol +:+ compound_order_ref +:+ "_long_sl"))]) in
    id3 ← getReqId;
    let long_exit :=
      place_order id3 (VStr "SELL") (VStr "MKT") (VStr "GTC") total_quantity true
        (list_to_map [("parent_id", VNum (inject_Z (orderId long_entry)));
                      ("price_condition", long_exit_condition);
                      ("is_more", VBool false);
                      ("order_ref",
                       VStr (localSymbol +:+ compound_order_ref +:+ "_long_exit"))]) in
    mret [long_entry; long_sl; long_exit].

(** [run], lines 273-276 and 224-227: the exit-all leg takes the live
    cash balance as its quantity. *)
Definition short_exit_all (ib : Venue) (localSymbol : string) : build (list Order) :=
  let cash_balance := get_cash_balance ib localSymbol in
  go_short ib localSymbol
    (list_to_map [("total_quantity", VNum cash_balance); ("is_exit_all", VBool true)]).

Definition long_exit_all (ib : Venue) (localSymbol : string) : build (list Order) :=
  let cash_balance := get_cash_balance ib localSymbol in
  go_long ib localSymbol
    (list_to_map [("total_quantity", VNum cash_balance); ("is_exit_all", VBool true)]).

(** [run], lines 261-269 and 197-220: the compound loops, [while i < 4]
    when short and [while i <= 4] when long, as the offsets they visit. *)
Definition short_offsets (i : Z) : list Z := seqZ i (4 - i).
Definition long_offsets (i : Z) : list Z := seqZ i (5 - i).

Fixpoint compound_orders (go : gmap string value -> build (list Order))
    (last_fill_price : value) (offsets : list Z) : build (list Order) :=
  match offsets with
  | [] => mret []
  | i :: rest =>
      orders ← go (list_to_map [("offset", VNum (inject_Z i));
                                ("is_compound_order", VBool true);
                                ("last_fill_price", last_fill_price)]);
      more ← compound_orders go last_fill_price rest;
      mret (orders ++ more)
  end.

(** [run], lines 63-67: 2% of the BASE cash balance, the last entry winning. *)
Definition max_unit_size (ib : Venue) : Q :=
  fold_left (fun max_unit_size v =>
               if String.eqb (av_currency v) "BASE" && String.eqb (av_tag v) "CashBalance"
               then (av_value v * (2 # 100))%Q else max_unit_size)
            (accountSummary ib) 0%Q.

(** [run], lines 77-81: the magnitude of cash balance times stop size
    times exchange rate. *)
Definition risked (ib : Venue) (localSymbol : string) : result Q :=
  let cash_balance := get_cash_balance ib localSymbol in
  sl_size ← as_num (get_atr_multiple ib localSymbol (1 # 2));
  base_exchange ← get_base_exchange ib localSymbol;
  Ok (Qabs (cash_balance * sl_size * base_exchange)).

(** [run], lines 54-84: the per-instrument variable setup.  The flags
    compare the cash balance itself with the band. *)
Record Setup := {
  setup_cash_balance : Q;
  setup_max_unit_size : Q;
  setup_is_long : bool;
  setup_is_short : bool;
  setup_unit_full : bool
}.

Definition initial_variable_setup (ib : Venue) (localSymbol : string) : result Setup :=
  let cash_balance := get_cash_balance ib localSymbol in
  let max_unit_size := max_unit_size ib in
  let is_long := Qltb 100 cash_balance in
  let is_short := Qltb cash_balance (-100) in
  risked ← risked ib localSymbol;
  Ok {| setup_cash_balance := cash_balance;
        setup_max_unit_size := max_unit_size;
        setup_is_long := is_long;
        setup_is_short := is_short;
        setup_unit_full := negb (Qltb risked max_unit_size && (is_long || is_short)) |}.

(** The branch the round takes on the flags, as in 0.2. *)
Definition branch (s : Setup) : V02.direction :=
  V02.branch_of (setup_is_long s) (setup_is_short s).

(** [run], lines 51-91: the setup, then the cancelling of the open orders
    of the instrument; an exception of the setup leaves [run] before any
    order is cancelled. *)
Definition setup_and_cancel (ib : Venue) (open_trades : list Trade) (localSymbol : string)
  : list event * result Setup :=
  match initial_variable_setup ib localSymbol with
  | Raise e => ([], Raise e)
  | Ok s =>
      (map (fun o => CancelOrder (trade_order o)) (get_open_trades open_trades localSymbol),
       Ok s)
  end.

(** [run], lines 137-159: the index [i] of the next entry. *)
Definition next_entry (risked max_unit_size : Q) : Z :=
  if Qltb risked (max_unit_size * (25 # 100)) then 1
  else if Qltb risked (max_unit_size * (5 # 10)) then 2
  else if Qltb risked (max_unit_size * (75 # 100)) then 3
  else 4.

End V01.

(** ** The run loop of both revisions

    [for instrument in self.instruments: <body>], with no [try] around the
    body or the loop: the body runs on the world (store, venue orders, log)
    left by the previous instrument, and what it raises leaves [run]. *)
Section RunLoop.
Context {world : Type}.
Variable body : string -> world -> world * option exn.

Fixpoint run (instruments : list string) (w : world) : world * option exn :=
  match instruments with
  | [] => (w, None)
  | instrument :: rest =>
      match body instrument w with
      | (w', Some e) => (w', Some e)
      | (w', None) => run rest w'
      end
  end.

End RunLoop.

(** The body of [run] in 0.2 up to its log line "Finished initial variable
    setup for ...": the world is the list of instruments that got there. *)
Definition setup_body (ib : Venue) (localSymbol : string) (log : list string)
  : list string * option exn :=
  match V02.initial_variable_setup ib localSymbol with
  | Ok _ => (log ++ [localSymbol], None)
  | Raise e => (log, Some e)
  end.

(** ** The spec's formula for the remaining tranches *)

(** [round((maxUnitSize - |currentUnitSize|) / (maxUnitSize/4))], as the
    specification words it. *)
Definition remainingTranches_spec (maxUnitSize currentUnitSize : Q) : result Z :=
  tranche ← py_div maxUnitSize 4;
  q ← py_div (maxUnitSize - Qabs currentUnitSize) tranche;
  Ok (py_round q).

(** ** The spec's classification of the live exposure *)


(** ** Sample data: EUR.USD on a USD account *)

Definition order_entry (action : string) (quantity price_condition : Q)
    (order_ref : string) (is_more : bool) (sl_price : Q) : value :=
  dict [("action", VStr action);
        ("orderType", VStr "MKT");
        ("tif", VStr "GTC");
        ("totalQuantity", VNum quantity);
        ("transmit", VBool false);
        ("priceCondition", VNum price_condition);
        ("orderRef", VStr order_ref);
        ("isMore", VBool is_more);
        ("slPrice", VNum sl_price)].

Definition unit_record (max_unit_size current_unit_size exit_all_price : Q)
    (is_long is_short : bool) (entries : list (string * value)) : value :=
  dict [("unitInfo",
         dict [("maxUnitSize", VNum max_unit_size);
               ("currentUnitSize", VNum current_unit_size);
               ("exitAllPrice", VNum exit_all_price);
               ("isLong", VBool is_long);
               ("isShort", VBool is_short);
               ("longEntry", V02.blank_order);
               ("shortEntry", V02.blank_order)]);
        ("entryInfo", dict entries)].

(** A long unit of 40000 with two tranches of 10000 filled. *)
Definition long_store : value :=
  dict [("EUR.USD",
         unit_record 40000 20000 (105 # 100) true false
           [("entryA", order_entry "BUY" 10000 (12 # 10) "EUR.USDentryA" true (1194 # 1000));
            ("entryB", order_entry "BUY" 10000 (1206 # 1000) "EUR.USDentryB" true (12 # 10));
            ("entryC", V02.blank_order);
            ("entryD", V02.blank_order)])].

(** A short unit of 40000 with one tranche of 10000 filled at 1.1. *)
Definition short_store : value :=
  dict [("EUR.USD",
         unit_record 40000 (-10000) (115 # 100) false true
           [("entryA", order_entry "SELL" 10000 (11 # 10) "EUR.USDentryA" false (1106 # 1000));
            ("entryB", V02.blank_order);
            ("entryC", V02.blank_order);
            ("entryD", V02.blank_order)])].

(** The account: 100000 USD available, ATR 0.0120, and a live EUR balance. *)
Definition sample_venue (cash_balance : Q) : Venue :=
  {| accountValues :=
       [ {| av_tag := "AvailableFunds"; av_currency := "USD"; av_value := 100000 |};
         {| av_tag := "CashBalance"; av_currency := "EUR"; av_value := cash_balance |} ];
     accountSummary :=
       [ {| av_tag := "CashBalance"; av_currency := "BASE"; av_value := 100000 |} ];
     marketPrice := fun _ => 1%Q;
     get_indicators := fun _ =>
       {| atr := 12 # 1000; long_dcl := 1; long_dcu := 12 # 10;
          short_dcl := 105 # 100; short_dcu := 115 # 100 |} |}.

(** A number value, in lowest terms; a number stored under a key. *)
Definition num_of (v : value) : option Q :=
  match v with
  | VNum q => Some (Qred q)
  | _ => None
  end.
Definition num_at (r : result value) (k : string) : option Q :=
  match r with
  | Ok (VDict m) => m !! k ≫= num_of
  | _ => None
  end.

(** The entry legs among a list of orders: those whose reference holds "entry". *)
Definition is_entry_order (o : Order) : bool :=
  match orderRef o with
  | Some (VStr s) => contains "entry" s
  | _ => false
  end.

(** [store[k1][k2]...] *)
Fixpoint store_at (v : result value) (path : list string) : result value :=
  match path with
  | [] => v
  | k :: rest => store_at (d ← v; getitem d k) rest
  end.

(** A long unit of 15000, one tranche recorded. *)
Definition long_15000_store : value :=
  dict [("EUR.USD",
         unit_record 40000 15000 (105 # 100) true false
           [("entryA", order_entry "BUY" 15000 (12 # 10) "EUR.USDentryA" true (1194 # 1000));
            ("entryB", V02.blank_order);
            ("entryC", V02.blank_order);
            ("entryD", V02.blank_order)])].

(** The keyword of [save_unit_info_to_json] and the key of [unitInfo] it
    writes, for each of its seven [if] statements. *)
Definition unit_info_fields : list (string * string) :=
  [("max_unit_size", "maxUnitSize");
   ("current_unit_size", "currentUnitSize");
   ("exit_all_price", "exitAllPrice");
   ("is_long", "isLong");
   ("is_short", "isShort");
   ("long_entry", "longEntry");
   ("short_entry", "shortEntry")].

(** The value a call passes for a keyword ([False] when it is left out). *)
Definition passed (kwargs : gmap string value) (kw : string) : value :=
  kwargs_get kwargs kw (VBool false).

(** The dictionary after [if v: d[k] = v]. *)
Definition upd (k : string) (v : value) (d : gmap string value) : gmap string value :=
  if truthy v then <[k := v]> d else d.

(** The pieces of [long_15000_store], and a call that passes a zero size
    and a false flag. *)
Definition sample_unit_info : gmap string value :=
  list_to_map [("maxUnitSize", VNum 40000);
               ("currentUnitSize", VNum 15000);
               ("exitAllPrice", VNum (105 # 100));
               ("isLong", VBool true);
               ("isShort", VBool false);
               ("longEntry", V02.blank_order);
               ("shortEntry", V02.blank_order)].
Definition sample_unit_data : gmap string value :=
  list_to_map
    [("unitInfo", VDict sample_unit_info);
     ("entryInfo",
      dict [("entryA", order_entry "BUY" 15000 (12 # 10) "EUR.USDentryA" true (1194 # 1000));
            ("entryB", V02.blank_order);
            ("entryC", V02.blank_order);
            ("entryD", V02.blank_order)])].
Definition sample_store_map : gmap string value :=
  list_to_map [("EUR.USD", VDict sample_unit_data)].
Definition zero_kwargs : gmap string value :=
  list_to_map [("current_unit_size", VNum 0); ("is_long", VBool false)].

(** The tag, the offset and the previous tranche of the three branches of
    the loop of [generate_compound_entry_info]. *)
Definition compound_table : list (string * Q * string) :=
  [("entryB", 1%Q, "entryA"); ("entryC", 2%Q, "entryB"); ("entryD", 3%Q, "entryC")].

(** The instruments of the main programme, and a venue on which the ATR
    of GBP.JPY is below half a tick. *)
Definition main_instruments : list string := ["GBP.JPY"; "EUR.USD"; "AUD.CAD"].

Definition quiet_venue : Venue :=
  {| accountValues :=
       [ {| av_tag := "AvailableFunds"; av_currency := "USD"; av_value := 100000 |} ];
     accountSummary :=
       [ {| av_tag := "CashBalance"; av_currency := "BASE"; av_value := 100000 |} ];
     marketPrice := fun _ => 1%Q;
     get_indicators := fun localSymbol =>
       {| atr := if String.eqb localSymbol "GBP.JPY" then 4 # 1000 else 12 # 1000;
          long_dcl := 1; long_dcu := 12 # 10;
          short_dcl := 105 # 100; short_dcu := 115 # 100 |} |}.

(** The price of the first condition of the first order of a built list. *)
Definition first_price (r : result (list Order * Z)) : option Q :=
  match r with
  | Ok (o :: _, _) => match conditions o with
                      | c :: _ => num_of (price c)
                      | [] => None
                      end
  | _ => None
  end.

(** The entry [generate_compound_entry_info] builds for a tag. *)
Definition generated_entry (r : result (gmap string value)) (tag : string) : result value :=
  m ← r; getitem (VDict m) tag.

(** Two open trades, one per instrument, and a store that holds GBP.JPY. *)
Definition sample_order (id : Z) (ref : string) : Order :=
  create_order id (VStr "SELL") (VStr "MKT") (VStr "GTC") (VNum 10000) true
    (list_to_map [("order_ref", VStr ref)]).

Definition sample_trades : list Trade :=
  [ {| trade_symbol := "GBP.JPY"; trade_order := sample_order 11 "GBP.JPYslA" |};
    {| trade_symbol := "EUR.USD"; trade_order := sample_order 12 "EUR.USDslA" |} ].

Definition sample_entry_info : gmap string value :=
  list_to_map
    [("entryA", order_entry "BUY" 15000 (12 # 10) "EUR.USDentryA" true (1194 # 1000));
     ("entryB", V02.blank_order);
     ("entryC", V02.blank_order);
     ("entryD", V02.blank_order)].

Definition sample_entry_a : gmap string value :=
  list_to_map [("action", VStr "BUY");
               ("orderType", VStr "MKT");
               ("tif", VStr "GTC");
               ("totalQuantity", VNum 15000);
               ("transmit", VBool false);
               ("priceCondition", VNum (12 # 10));
               ("orderRef", VStr "EUR.USDentryA");
               ("isMore", VBool true);
               ("slPrice", VNum (1194 # 1000))].

Definition gbp_store_map : gmap string value :=
  list_to_map [("GBP.JPY", VDict sample_unit_data)].


(** An overdrawn USD account: available funds of -100000. *)
Definition overdrawn_venue : Venue :=
  {| accountValues :=
       [ {| av_tag := "AvailableFunds"; av_currency := "USD"; av_value := - (100000) |} ];
     accountSummary :=
       [ {| av_tag := "CashBalance"; av_currency := "BASE"; av_value := - (100000) |} ];
     marketPrice := fun _ => 1%Q;
     get_indicators := get_indicators quiet_venue |}.

(** An account whose values hold no AvailableFunds row. *)
Definition no_funds_venue : Venue :=
  {| accountValues :=
       [ {| av_tag := "CashBalance"; av_currency := "EUR"; av_value := 0 |} ];
     accountSummary :=
       [ {| av_tag := "CashBalance"; av_currency := "BASE"; av_value := 100000 |} ];
     marketPrice := fun _ => 1%Q;
     get_indicators := get_indicators quiet_venue |}.

(** * Properties *)

Local Open Scope Q_scope.

(** ** The result monad and the dictionary accessors *)

Lemma bind_Ok {A B} (a : A) (f : A -> result B) : (Ok a ≫= f) = f a.
Proof. reflexivity. Qed.

Lemma build_bind_Ok {A B} (a : A) (f : A -> build B) (n : Z) :
  (lift (Ok a) ≫= f) n = f a n.
Proof. reflexivity. Qed.

Lemma getitem_dict (m : gmap string value) (k : string) (v : value) :
  m !! k = Some v -> getitem (VDict m) k = Ok v.
Proof. intros H. unfold getitem. rewrite H. reflexivity. Qed.

Lemma as_num_VNum (q : Q) : as_num (VNum q) = Ok q.
Proof. reflexivity. Qed.

(** Object identity on values loaded from the file. *)
Example py_is_cases :
  py_is (VBool true) (VBool true) = true /\
  py_is (VStr "") (VStr "") = true /\
  py_is (VStr "x") (VStr "x") = true /\
  py_is (VStr "SELL") (VStr "SELL") = false /\
  py_is (VNum 1) (VNum 1) = true /\
  py_is (VNum 300) (VNum 300) = false /\
  py_is (VNum (1 # 2)) (VNum (1 # 2)) = false /\
  py_is (VBool true) (VNum 1) = false /\
  py_is (VNum 0) VNone = false.
Proof. repeat split; reflexivity. Qed.

(** ** Numbers *)

Lemma Qltb_lt (x y : Q) : Qltb x y = true <-> x < y.
Proof.
  unfold Qltb. rewrite negb_true_iff, <- not_true_iff_false, Qle_bool_iff.
  split; [apply Qnot_le_lt | apply Qlt_not_le].
Qed.

Lemma Qltb_ge (x y : Q) : Qltb x y = false <-> y <= x.
Proof. unfold Qltb. rewrite negb_false_iff. apply Qle_bool_iff. Qed.

Lemma py_div_nonzero (x y : Q) : ~ y == 0 -> py_div x y = Ok (x / y).
Proof.
  intros H. unfold py_div. destruct (Qeq_bool y 0) eqn:E; [| reflexivity].
  apply Qeq_bool_iff in E. contradiction.
Qed.

Lemma py_div_zero (x y : Q) : y == 0 -> py_div x y = Raise ZeroDivisionError.
Proof.
  intros H. unfold py_div. apply Qeq_bool_iff in H. rewrite H. reflexivity.
Qed.

Lemma py_div_quarter (x : Q) : py_div x 4 = Ok (x / 4).
Proof. reflexivity. Qed.

Lemma Qeq_bool_quarter (x : Q) : Qeq_bool (x / 4) 0 = Qeq_bool x 0.
Proof.
  destruct (Qeq_bool x 0) eqn:H.
  - apply Qeq_bool_iff in H. apply Qeq_bool_iff. rewrite H. reflexivity.
  - destruct (Qeq_bool (x / 4) 0) eqn:H'; [| reflexivity].
    apply Qeq_bool_iff in H'. apply Qeq_bool_neq in H. exfalso. apply H.
    assert (E : x == 4 * (x / 4)) by field. rewrite E, H'. reflexivity.
Qed.

(** [round] never goes below the floor. *)
Lemma py_round_ge_floor (x : Q) : (Qfloor x <= py_round x)%Z.
Proof.
  unfold py_round. destruct (_ ?= _); [destruct (Z.even _) | |]; lia.
Qed.

(** Ties go to the even neighbour, on both sides of zero. *)
Example py_round_ties :
  py_round (5 # 2) = 2%Z /\ py_round (7 # 2) = 4%Z /\
  py_round (- (5 # 2)) = (-2)%Z /\ py_round (- (1 # 2)) = 0%Z /\
  py_round (- (7 # 4)) = (-2)%Z /\ py_round (26 # 10) = 3%Z.
Proof. repeat split; reflexivity. Qed.

(** On the EUR.USD grid of 0.00005, 0.0060 stays and 0.00617 goes to
    0.00615 (123 ticks); an unknown pair gives [None]. *)
Example adjust_for_price_increments_grid :
  num_of (adjust_for_price_increments "EUR.USD" (60 # 10000)) = Some (3 # 500) /\
  num_of (adjust_for_price_increments "EUR.USD" (617 # 100000)) = Some (123 # 20000) /\
  adjust_for_price_increments "USD.JPY" (617 # 100000) = VNone.
Proof. repeat split; reflexivity. Qed.

(** ** Classification of the live exposure *)

(** The bands of the comparison [run] makes: flat exactly when the
    magnitude is at most 100, long exactly above 100 and short exactly
    below -100. *)
Theorem classify_bands (x : Q) :
  (V02.classify x = V02.Flat <-> Qabs x <= 100) /\
  (V02.classify x = V02.Long <-> 100 < x) /\
  (V02.classify x = V02.Short <-> x < -100) /\
  V02.classify 150 = V02.Long /\ V02.classify 50 = V02.Flat /\
  V02.classify 100 = V02.Flat /\ V02.classify (-100) = V02.Flat.
Proof.
  unfold V02.classify, V02.branch_of, V02.is_long, V02.is_short.
  rewrite Qabs_Qle_condition.
  destruct (Qltb 100 x) eqn:Hl; destruct (Qltb x (-100)) eqn:Hs; simpl;
    try apply Qltb_lt in Hl; try apply Qltb_lt in Hs;
    try apply Qltb_ge in Hl; try apply Qltb_ge in Hs.
  all: (split; [| split; [| split; [| repeat split; reflexivity]]]);
    (split; intros H0;
     first [ discriminate H0 | reflexivity | lra | split; lra | exfalso; lra
           | exfalso; apply proj1 in H0; lra ]).
Qed.









(** ** Remaining tranches *)

(** The second message is the 82 characters of the continued literal. *)
Example msg_gt0_length :
  String.length V02.msg_gt0 = 82%nat /\
  String.substring 0 31 V02.msg_gt0 = "Remaining orders in unit <= 0, " /\
  String.substring 52 30 V02.msg_gt0 = "but unit found to be not full!".
Proof. repeat split; reflexivity. Qed.

(** The computation of [run] as one case analysis. *)
Lemma remaining_orders_unfold (mx cur : Q) :
  V02.remaining_orders mx cur =
    if Qeq_bool mx 0 then Raise ZeroDivisionError
    else
      let r := py_round ((mx - cur) / (mx / 4)) in
      if negb (r <? 4)%Z then Raise (AssertionError V02.msg_lt4)
      else if negb (0 <? r)%Z then Raise (AssertionError V02.msg_gt0)
      else Ok r.
Proof.
  unfold V02.remaining_orders. rewrite py_div_quarter, bind_Ok.
  unfold py_div. rewrite Qeq_bool_quarter.
  destruct (Qeq_bool mx 0); [reflexivity |].
  rewrite bind_Ok. unfold py_assert.
  destruct (py_round _ <? 4)%Z; [| reflexivity]. rewrite bind_Ok.
  destruct (0 <? py_round _)%Z; reflexivity.
Qed.

(** C1, as the code has it.  Whatever the computation returns lies in
    [1,3], hence never outside [0,4]; and when maxUnitSize is not zero it
    either returns such a value or fails one of its two assertions. *)
Theorem remaining_orders_range (mx cur : Q) :
  (forall v, V02.remaining_orders mx cur = Ok v -> (1 <= v <= 3)%Z) /\
  (~ mx == 0 ->
   (exists v, V02.remaining_orders mx cur = Ok v /\ (1 <= v <= 3)%Z) \/
   (exists msg, V02.remaining_orders mx cur = Raise (AssertionError msg))).
Proof.
  rewrite remaining_orders_unfold. cbv zeta.
  set (r := py_round _).
  split.
  - intros v. destruct (Qeq_bool mx 0); [discriminate |].
    destruct (r <? 4)%Z eqn:H4; [| discriminate].
    destruct (0 <? r)%Z eqn:H0; [| discriminate].
    cbn. intros [= <-]. lia.
  - intros Hmx. destruct (Qeq_bool mx 0) eqn:E.
    + apply Qeq_bool_iff in E. contradiction.
    + destruct (r <? 4)%Z eqn:H4; [| right; eauto].
      destruct (0 <? r)%Z eqn:H0; [| right; eauto].
      left. exists r. split; [reflexivity | lia].
Qed.

Lemma remaining_orders_range_witness :
  (forall v, V02.remaining_orders 40000 10000 = Ok v -> (1 <= v <= 3)%Z) /\
  ((exists v, V02.remaining_orders 40000 10000 = Ok v /\ (1 <= v <= 3)%Z) \/
   (exists msg, V02.remaining_orders 40000 10000 = Raise (AssertionError msg))).
Proof.
  split.
  - apply (proj1 (remaining_orders_range 40000 10000)).
  - apply (proj2 (remaining_orders_range 40000 10000)). discriminate.
Defined.

(** C1 as the specification words it fails at maxUnitSize = 0: the division by
    [max_unit_size / 4] raises ZeroDivisionError, which is neither a value
    nor a failed assertion. *)
Lemma remaining_orders_zero_max :
  V02.remaining_orders 0 0 = Raise ZeroDivisionError.
Proof. reflexivity. Qed.

(** X23.  A unit with a positive maxUnitSize and a negative recorded size
    never gets past the first assertion: the signed size makes the
    quotient exceed 4. *)
Lemma remaining_orders_short_fails (mx cur : Q) :
  0 < mx -> cur < 0 ->
  V02.remaining_orders mx cur = Raise (AssertionError V02.msg_lt4).
Proof.
  intros Hmx Hcur. rewrite remaining_orders_unfold.
  destruct (Qeq_bool mx 0) eqn:E.
  { apply Qeq_bool_iff in E. lra. }
  cbv zeta.
  assert (H4 : 4 <= (mx - cur) / (mx / 4)).
  { change (mx / 4) with (mx * (1 # 4)). apply Qle_shift_div_l; lra. }
  apply Qfloor_resp_le in H4. change (Qfloor 4) with 4%Z in H4.
  pose proof (py_round_ge_floor ((mx - cur) / (mx / 4))) as Hr.
  destruct (_ <? 4)%Z eqn:Hlt; [lia | reflexivity].
Qed.

(** On a non-negative recorded size the code's value is the formula's. *)
Lemma remaining_orders_long_agrees (mx cur : Q) :
  0 <= cur ->
  forall v, V02.remaining_orders mx cur = Ok v -> remainingTranches_spec mx cur = Ok v.
Proof.
  intros Hcur v. rewrite remaining_orders_unfold.
  unfold remainingTranches_spec. rewrite py_div_quarter, bind_Ok.
  unfold py_div. rewrite Qeq_bool_quarter.
  destruct (Qeq_bool mx 0); [discriminate |]. rewrite bind_Ok.
  assert (Habs : Qabs cur = cur).
  { destruct cur as [n d]. unfold Qle in Hcur. simpl in *. f_equal. lia. }
  rewrite Habs. cbv zeta.
  destruct (_ <? 4)%Z; [| discriminate]. destruct (0 <? _)%Z; [| discriminate].
  cbn. congruence.
Qed.

(** C2 at maxUnitSize = 40000.  A long unit of 10000 has 3 tranches left,
    as the formula with the absolute value says; for the short unit of the
    same magnitude the formula still says 3, while the code subtracts the
    signed size, reaches 5 and fails its first assertion. *)
Theorem remaining_orders_ignores_sign :
  V02.remaining_orders 40000 10000 = Ok 3%Z /\
  remainingTranches_spec 40000 10000 = Ok 3%Z /\
  remainingTranches_spec 40000 (-10000) = Ok 3%Z /\
  V02.remaining_orders 40000 (-10000) = Raise (AssertionError V02.msg_lt4).
Proof. repeat split; reflexivity. Qed.

(** ** Compound entries *)

(** C3.  The tag chain of [run] yields the single tag "entryB" for every
    count of at least 1 and nothing below; so with 2 tranches remaining (a
    long unit of 40000 holding 20000) the compound orders hold one entry
    leg, and with 3 remaining there is again one tag, where the
    specification has one compound entry per remaining tranche. *)
Theorem compound_tags_single_entry :
  (forall r : Z,
      V02.compound_order_json_tags r = if (1 <=? r)%Z then ["entryB"] else []) /\
  V02.remaining_orders_of (unit_record 40000 20000 (105 # 100) true false []) = Ok 2%Z /\
  (exists orders n,
      V02.create_compound_orders (sample_venue 20000) long_store "EUR.USD" 2 1%Z
        = Ok (orders, n) /\
      length (filter is_entry_order orders) = 1%nat) /\
  length (V02.compound_order_json_tags 3) = 1%nat.
Proof.
  split; [| split; [| split]].
  - intros r. unfold V02.compound_order_json_tags.
    destruct (1 <=? r)%Z eqn:H1; [reflexivity |].
    destruct (2 <=? r)%Z eqn:H2; [lia |].
    destruct (r =? 3)%Z eqn:H3; [lia | reflexivity].
  - vm_compute. reflexivity.
  - eexists _, _. split; vm_compute; reflexivity.
  - reflexivity.
Qed.

(** The short loop of 0.1 visits one offset per remaining order. *)
Lemma short_offsets_length (i : Z) :
  length (V01.short_offsets i) = Z.to_nat (4 - i).
Proof. unfold V01.short_offsets. apply length_seqZ. Qed.

(** With two orders left (i = 2) the short loop of 0.1 builds two compound
    legs of three orders each, at 1.1 - 2 * 0.006 and 1.1 - 3 * 0.006. *)
Example compound_short_two_left :
  exists orders n,
    V01.compound_orders (V01.go_short (sample_venue (-20000)) "EUR.USD") (VNum (11 # 10))
      (V01.short_offsets 2) 1%Z = Ok (orders, n) /\
    length orders = 6%nat /\
    length (filter is_entry_order orders) = 2%nat /\
    first_price (Ok (orders, n)) = Some (136 # 125) /\
    first_price (Ok (drop 3 orders, n)) = Some (541 # 500).
Proof. eexists _, _. repeat split; vm_compute; reflexivity. Qed.

(** The long loop of 0.1 visits one more. *)
Lemma long_offsets_length (i : Z) :
  length (V01.long_offsets i) = Z.to_nat (5 - i).
Proof. unfold V01.long_offsets. apply length_seqZ. Qed.

(** The three rows of [compound_table], then the run of one loop round. *)
Ltac compound_entry_run Hinfo Hprev Hp Hs :=
  unfold V02.compound_entry; cbn [String.eqb Ascii.eqb Bool.eqb orb py_assert];
  rewrite bind_Ok, (getitem_dict _ _ _ Hinfo), bind_Ok;
  rewrite (getitem_dict _ _ _ Hprev), !bind_Ok; cbn [truthy];
  rewrite (getitem_dict _ _ _ Hp), bind_Ok, Hs; cbn [as_num]; rewrite !bind_Ok;
  eexists; split; [reflexivity | repeat split; reflexivity].

(** X24.  A long compound entry of 0.2 triggers at the previous entry's
    price plus offset times the stop distance, with its stop one distance
    below and the quantity it is given. *)
Lemma compound_entry_long (ib : Venue) (sym : string)
    (unit_data entry_info last_entry : gmap string value)
    (p s : Q) (qty : Z) (r prev : string) (offset : Q) :
  (r, offset, prev) ∈ compound_table ->
  unit_data !! "entryInfo" = Some (VDict entry_info) ->
  entry_info !! prev = Some (VDict last_entry) ->
  last_entry !! "priceCondition" = Some (VNum p) ->
  get_atr_multiple ib sym (1 # 2) = VNum s ->
  exists e : gmap string value,
    V02.compound_entry ib sym (VDict unit_data) (VNum s) qty (VBool true) (VBool false) r
      = Ok (VDict e) /\
    e !! "priceCondition" = Some (VNum (p + offset * s)) /\
    e !! "slPrice" = Some (VNum (p + offset * s - s)) /\
    e !! "totalQuantity" = Some (VNum (inject_Z qty)).
Proof.
  intros Hin Hinfo Hprev Hp Hs. unfold compound_table in Hin.
  repeat (apply elem_of_cons in Hin as [[= -> -> ->] | Hin]);
    [.. | by apply elem_of_nil in Hin].
  all: compound_entry_run Hinfo Hprev Hp Hs.
Qed.

(** X25.  A short compound entry of 0.2 negates the previous entry's price
    before subtracting the offset; its stop is one distance above that
    trigger. *)
Lemma compound_entry_short (ib : Venue) (sym : string)
    (unit_data entry_info last_entry : gmap string value)
    (p s : Q) (qty : Z) (r prev : string) (offset : Q) :
  (r, offset, prev) ∈ compound_table ->
  unit_data !! "entryInfo" = Some (VDict entry_info) ->
  entry_info !! prev = Some (VDict last_entry) ->
  last_entry !! "priceCondition" = Some (VNum p) ->
  get_atr_multiple ib sym (1 # 2) = VNum s ->
  exists e : gmap string value,
    V02.compound_entry ib sym (VDict unit_data) (VNum s) qty (VBool false) (VBool true) r
      = Ok (VDict e) /\
    e !! "priceCondition" = Some (VNum (- p - offset * s)) /\
    e !! "slPrice" = Some (VNum (- p - offset * s + s)) /\
    e !! "totalQuantity" = Some (VNum (inject_Z qty)).
Proof.
  intros Hin Hinfo Hprev Hp Hs. unfold compound_table in Hin.
  repeat (apply elem_of_cons in Hin as [[= -> -> ->] | Hin]);
    [.. | by apply elem_of_nil in Hin].
  all: compound_entry_run Hinfo Hprev Hp Hs.
Qed.

(** C4 on a short unit whose first tranche is recorded at 1.1, with a stop
    distance of 0.006.  The specification puts the next entry at 1.1 - 0.006 =
    1.094 with its stop at 1.1, which is what [go_short] of 0.1 builds;
    [generate_compound_entry_info] of 0.2 returns -1.1 - 0.006 = -1.106
    with its stop at -1.1.  On the long unit of [long_store] the same
    function adds: 1.2 + 0.006 = 1.206 with its stop at 1.2. *)
Theorem compound_short_negates_previous :
  num_at (store_at (Ok short_store) ["EUR.USD"; "entryInfo"; "entryA"]) "priceCondition"
    = Some (11 # 10) /\
  num_of (get_atr_multiple (sample_venue (-10000)) "EUR.USD" (1 # 2)) = Some (3 # 500) /\
  num_at (generated_entry
            (V02.generate_compound_entry_info (sample_venue (-10000)) short_store
               "EUR.USD" ["entryB"]) "entryB") "priceCondition" = Some (- 553 # 500) /\
  num_at (generated_entry
            (V02.generate_compound_entry_info (sample_venue (-10000)) short_store
               "EUR.USD" ["entryB"]) "entryB") "slPrice" = Some (- 11 # 10) /\
  first_price
    (V01.go_short (sample_venue (-10000)) "EUR.USD"
       (list_to_map [("offset", VNum 1); ("is_compound_order", VBool true);
                     ("last_fill_price", VNum (11 # 10))]) 1%Z) = Some (547 # 500) /\
  num_at (generated_entry
            (V02.generate_compound_entry_info (sample_venue 20000) long_store
               "EUR.USD" ["entryB"]) "entryB") "priceCondition" = Some (603 # 500) /\
  num_at (generated_entry
            (V02.generate_compound_entry_info (sample_venue 20000) long_store
               "EUR.USD" ["entryB"]) "entryB") "slPrice" = Some (6 # 5).
Proof. repeat split; vm_compute; reflexivity. Qed.

(** ** Clearing the store on the flat transition *)

Lemma clear_matching_id (d : value) (name : string) (keys : list string) :
  V02.clear_matching d name keys d = d.
Proof.
  induction keys as [| k keys IH]; [reflexivity |].
  cbn [V02.clear_matching]. destruct (String.eqb k name); exact IH.
Qed.

Lemma clear_each_id (store : value) (sym : string) (names : list string) :
  V02.clear_each store sym names store = Ok store \/
  exists e, V02.clear_each store sym names store = Raise e.
Proof.
  induction names as [| name names IH]; [left; reflexivity |].
  cbn [V02.clear_each].
  destruct (getitem store sym) as [ud | e]; [| right; eauto].
  rewrite bind_Ok. destruct (getitem ud "entryInfo") as [info | e]; [| right; eauto].
  rewrite bind_Ok. destruct (py_iter info) as [keys | e]; [| right; eauto].
  rewrite bind_Ok, clear_matching_id. exact IH.
Qed.

(** C8.  [clear_orders_from_json] of 0.2 never changes the store: it
    returns it as it was or raises.  After the flat branch has run on a
    long unit of 15000 with a live exposure of 20, the tranche entries are
    those of before (entryA still holds 15000), the long flag is still
    set, and the recorded size is 20. *)
Theorem clear_orders_leaves_store :
  (forall store sym names,
      V02.clear_orders_from_json store sym names = Ok store \/
      exists e, V02.clear_orders_from_json store sym names = Raise e) /\
  store_at (V02.flat_branch_store long_15000_store "EUR.USD" 30000 20
              V02.blank_order V02.blank_order) ["EUR.USD"; "entryInfo"]
    = store_at (Ok long_15000_store) ["EUR.USD"; "entryInfo"] /\
  store_at (V02.flat_branch_store long_15000_store "EUR.USD" 30000 20
              V02.blank_order V02.blank_order)
           ["EUR.USD"; "entryInfo"; "entryA"; "totalQuantity"] = Ok (VNum 15000) /\
  store_at (V02.flat_branch_store long_15000_store "EUR.USD" 30000 20
              V02.blank_order V02.blank_order) ["EUR.USD"; "unitInfo"; "isLong"]
    = Ok (VBool true) /\
  store_at (V02.flat_branch_store long_15000_store "EUR.USD" 30000 20
              V02.blank_order V02.blank_order) ["EUR.USD"; "unitInfo"; "currentUnitSize"]
    = Ok (VNum 20).
Proof.
  split.
  - intros store sym names. apply clear_each_id.
  - repeat split; vm_compute; reflexivity.
Qed.

(** The loop of 0.1 reaches every key it is given. *)
Lemma blank_all_lookup (keys : list string) (ud : gmap string value) :
  exists ud' : gmap string value,
    V01.blank_all (VDict ud) keys = Ok (VDict ud') /\
    forall k, ud' !! k = if bool_decide (k ∈ keys) then Some V01.blank_entry else ud !! k.
Proof.
  revert ud. induction keys as [| key keys IH]; intros ud.
  - exists ud. split; [reflexivity |]. intros k. case_bool_decide as H; [| reflexivity].
    by apply elem_of_nil in H.
  - destruct (IH (<[key := V01.blank_entry]> ud)) as (ud' & Hrun & Hlook).
    exists ud'. split; [exact Hrun |]. intros k. rewrite Hlook.
    destruct (decide (key = k)) as [-> | Hne].
    + rewrite lookup_insert_eq.
      rewrite (bool_decide_eq_true_2 (k ∈ k :: keys)) by apply list_elem_of_here.
      by case_bool_decide.
    + rewrite lookup_insert_ne by exact Hne.
      apply (f_equal (fun b : bool => if b then _ else _)).
      apply bool_decide_ext. rewrite elem_of_cons.
      split; [auto | intros [Heq | Hk]; [congruence | exact Hk]].
Qed.

(** X26.  The clearing code of 0.1 blanks every entry of the instrument
    and leaves the other instruments of the store as they were. *)
Lemma clear_json_data_blanks (m ud : gmap string value) (sym : string) :
  m !! sym = Some (VDict ud) ->
  V01.clear_json_data (VDict m) sym
    = Ok (VDict (<[sym := VDict ((fun _ => V01.blank_entry) <$> ud)]> m)).
Proof.
  intros Hm. unfold V01.clear_json_data. cbv zeta.
  rewrite (getitem_dict _ _ _ Hm), bind_Ok. cbn [py_iter]. rewrite bind_Ok.
  destruct (blank_all_lookup (map_to_list ud).*1 ud) as (ud' & -> & Hlook).
  rewrite bind_Ok. cbn [setitem].
  assert (ud' = (fun _ => V01.blank_entry) <$> ud) as ->; [| reflexivity].
  apply map_eq. intros k. rewrite Hlook, lookup_fmap.
  case_bool_decide as Hk.
  - apply list_elem_of_fmap in Hk as ([k' v] & -> & Hk).
    apply elem_of_map_to_list in Hk. cbn. rewrite Hk. reflexivity.
  - destruct (ud !! k) as [v |] eqn:E; [| reflexivity].
    exfalso. apply Hk. apply list_elem_of_fmap. exists (k, v).
    split; [reflexivity | by apply elem_of_map_to_list].
Qed.

(** ** Order quantities *)

(** C9 on the exit-all leg of a short unit in 0.1.  Whenever
    [go_short] builds it, its quantity is the live cash balance as it
    stands; for a short unit of 15000 (classified short) that quantity
    is -15000, where the specification requires a strictly positive one. *)
Theorem short_exit_all_quantity_signed :
  (forall ib sym n,
      match V01.short_exit_all ib sym n with
      | Ok (orders, _) =>
          exists o, orders = [o] /\ totalQuantity o = VNum (get_cash_balance ib sym)
      | Raise _ => True
      end) /\
  V02.classify (-15000) = V02.Short /\
  (exists o n,
      V01.short_exit_all (sample_venue (-15000)) "EUR.USD" 1%Z = Ok ([o], n) /\
      totalQuantity o = VNum (-15000)).
Proof.
  split; [| split; [reflexivity | eexists _, _; split; vm_compute; reflexivity]].
  intros ib sym n. unfold V01.short_exit_all, V01.go_short.
  set (kwargs := list_to_map _).
  assert (Hq : kwargs_get kwargs "total_quantity" = fun _ => VNum (get_cash_balance ib sym))
    by reflexivity.
  assert (He : kwargs_get kwargs "is_exit_all" (VBool false) = VBool true) by reflexivity.
  assert (Ho : kwargs_get kwargs "offset" (VNum 0) = VNum 0) by reflexivity.
  assert (Hs : kwargs_get kwargs "sl_size" = fun d => d) by reflexivity.
  rewrite He, Ho. unfold V01.sizing_kwargs. rewrite Hq, Hs.
  change (truthy (VBool true)) with true. cbv iota.
  destruct (set_position_size _ _ _) as [size | e]; [| exact I].
  rewrite bind_Ok, build_bind_Ok.
  destruct (V01.sub_mul _ _ _) as [c | e]; [| exact I].
  rewrite build_bind_Ok.
  eexists. split; reflexivity.
Qed.

(** The long exit-all leg of the same revision carries a positive
    quantity on a long unit. *)
Lemma long_exit_all_quantity_sample :
  exists o n,
    V01.long_exit_all (sample_venue 15000) "EUR.USD" 1%Z = Ok ([o], n) /\
    totalQuantity o = VNum 15000.
Proof. eexists _, _. split; vm_compute; reflexivity. Qed.

(** The sizing of an initial entry rounds to zero on a USD account whose
    available funds are 0; on an account without an AvailableFunds row the
    account currency is the empty string and the sizing fails on the pair
    it builds for the exchange rate. *)
Lemma set_position_size_zero_funds :
  set_position_size
    {| accountValues :=
         [ {| av_tag := "AvailableFunds"; av_currency := "USD"; av_value := 0 |} ];
       accountSummary := []; marketPrice := fun _ => 1;
       get_indicators := get_indicators (sample_venue 0) |}
    "EUR.USD" (VNum (6 # 1000)) = Ok 0%Z /\
  set_position_size
    {| accountValues := []; accountSummary := []; marketPrice := fun _ => 1;
       get_indicators := get_indicators (sample_venue 0) |}
    "EUR.USD" (VNum (6 # 1000)) = Raise (AssertionError "").
Proof. split; reflexivity. Qed.

(** ** The unit-info mutator *)

Lemma set_if_truthy_dict (d : gmap string value) (k : string) (v : value) :
  V02.set_if_truthy (VDict d) k v = Ok (VDict (upd k v d)).
Proof. unfold V02.set_if_truthy, upd. destruct (truthy v); reflexivity. Qed.

Lemma lookup_upd (k j : string) (v : value) (d : gmap string value) :
  upd k v d !! j = if truthy v && bool_decide (k = j) then Some v else d !! j.
Proof.
  unfold upd. destruct (truthy v); cbn [andb]; [| reflexivity].
  case_bool_decide as H; [subst; apply lookup_insert_eq | by apply lookup_insert_ne].
Qed.

(** The store after a call, on a store that holds the instrument. *)
Lemma save_unit_info_result (m ud ui : gmap string value) (sym : string)
    (kwargs : gmap string value) :
  m !! sym = Some (VDict ud) ->
  ud !! "unitInfo" = Some (VDict ui) ->
  V02.save_unit_info_to_json (VDict m) sym kwargs =
    Ok (VDict (<[sym := VDict (<["unitInfo" :=
          VDict (upd "shortEntry" (passed kwargs "short_entry")
                (upd "longEntry" (passed kwargs "long_entry")
                (upd "isShort" (passed kwargs "is_short")
                (upd "isLong" (passed kwargs "is_long")
                (upd "exitAllPrice" (passed kwargs "exit_all_price")
                (upd "currentUnitSize" (passed kwargs "current_unit_size")
                (upd "maxUnitSize" (passed kwargs "max_unit_size") ui)))))))]> ud)]> m)).
Proof.
  intros Hm Hud. unfold V02.save_unit_info_to_json. cbv zeta.
  rewrite (getitem_dict _ _ _ Hm), bind_Ok, (getitem_dict _ _ _ Hud), bind_Ok.
  fold (passed kwargs "max_unit_size"). fold (passed kwargs "current_unit_size").
  fold (passed kwargs "exit_all_price"). fold (passed kwargs "is_long").
  fold (passed kwargs "is_short"). fold (passed kwargs "long_entry").
  fold (passed kwargs "short_entry").
  repeat (rewrite set_if_truthy_dict, bind_Ok). reflexivity.
Qed.

Ltac upd_cases :=
  rewrite !lookup_upd;
  repeat match goal with
         | |- context [truthy ?v && bool_decide (?a = ?b)] =>
             let E := fresh "E" in
             destruct (truthy v && bool_decide (a = b)) eqn:E
         end.

(** C10.  On a store that holds the instrument's unit info, a call of
    [save_unit_info_to_json] succeeds and changes nothing but that unit
    info: a field whose keyword is omitted or passed a falsy value (0,
    False) keeps its stored value, a field whose keyword is truthy takes
    it, every other key of the unit info is untouched, and any field
    whose value changed holds a truthy value afterwards, so neither a zero
    size nor a False flag can be recorded. *)
Theorem save_unit_info_only_truthy (m ud ui : gmap string value) (sym : string)
    (kwargs : gmap string value) :
  m !! sym = Some (VDict ud) ->
  ud !! "unitInfo" = Some (VDict ui) ->
  exists ui' : gmap string value,
    V02.save_unit_info_to_json (VDict m) sym kwargs =
      Ok (VDict (<[sym := VDict (<["unitInfo" := VDict ui']> ud)]> m)) /\
    (forall kw field, (kw, field) ∈ unit_info_fields ->
       truthy (passed kwargs kw) = false -> ui' !! field = ui !! field) /\
    (forall kw field, (kw, field) ∈ unit_info_fields ->
       truthy (passed kwargs kw) = true -> ui' !! field = Some (passed kwargs kw)) /\
    (forall k, k ∉ unit_info_fields.*2 -> ui' !! k = ui !! k) /\
    (forall k v, ui' !! k = Some v -> ui !! k ≠ Some v -> truthy v = true).
Proof.
  intros Hm Hud. eexists. split; [apply save_unit_info_result; eassumption |].
  split; [| split; [| split]].
  - intros kw field Hin Hf. unfold unit_info_fields in Hin.
    repeat (apply elem_of_cons in Hin as [[= -> ->] | Hin]);
      [.. | by apply elem_of_nil in Hin].
    all: rewrite !lookup_upd, Hf; cbn [andb];
      repeat (case_bool_decide; [discriminate |]); rewrite ?andb_false_r; reflexivity.
  - intros kw field Hin Ht. unfold unit_info_fields in Hin.
    repeat (apply elem_of_cons in Hin as [[= -> ->] | Hin]);
      [.. | by apply elem_of_nil in Hin].
    all: rewrite !lookup_upd, ?Ht; cbn [andb];
      repeat (case_bool_decide; [discriminate || reflexivity |]);
      rewrite ?andb_false_r; try reflexivity; try congruence.
  - intros k Hk. rewrite !lookup_upd.
    repeat (case_bool_decide;
            [subst k; exfalso; apply Hk; cbn; set_solver | rewrite andb_false_r]).
    reflexivity.
  - intros k v. upd_cases; intros Hv Hne; try congruence.
    all: injection Hv as <-;
      match goal with
      | H : truthy ?x && _ = true |- truthy ?x = true =>
          apply andb_prop in H as [H _]; exact H
      end.
Qed.

Lemma save_unit_info_only_truthy_witness :
  VDict sample_store_map = long_15000_store /\
  truthy (passed zero_kwargs "current_unit_size") = false /\
  truthy (passed zero_kwargs "is_long") = false /\
  exists ui' : gmap string value,
    V02.save_unit_info_to_json (VDict sample_store_map) "EUR.USD" zero_kwargs =
      Ok (VDict (<["EUR.USD" := VDict (<["unitInfo" := VDict ui']> sample_unit_data)]>
                   sample_store_map)) /\
    (forall kw field, (kw, field) ∈ unit_info_fields ->
       truthy (passed zero_kwargs kw) = false -> ui' !! field = sample_unit_info !! field) /\
    (forall kw field, (kw, field) ∈ unit_info_fields ->
       truthy (passed zero_kwargs kw) = true -> ui' !! field = Some (passed zero_kwargs kw)) /\
    (forall k, k ∉ unit_info_fields.*2 -> ui' !! k = sample_unit_info !! k) /\
    (forall k v, ui' !! k = Some v -> sample_unit_info !! k ≠ Some v -> truthy v = true).
Proof.
  split; [reflexivity | split; [reflexivity | split; [reflexivity |]]].
  apply (save_unit_info_only_truthy sample_store_map sample_unit_data sample_unit_info
           "EUR.USD" zero_kwargs); reflexivity.
Defined.

(** ** Position sizing *)

Lemma py_round_nonpos (x : Q) : x <= 0 -> (py_round x <= 0)%Z.
Proof.
  intros H. assert (E : py_round 0 = 0%Z) by reflexivity.
  rewrite <- E. revert H. generalize 0. intros z H.
  destruct (Qlt_le_dec z x) as [Hlt | Hle]; [exfalso; lra |].
  unfold py_round at 1 2.
  assert (Hf : (Qfloor x <= Qfloor z)%Z) by (apply Qfloor_resp_le; exact Hle).
  pose proof (Qfloor_le x) as Hx1. pose proof (Qlt_floor x) as Hx2.
  pose proof (Qfloor_le z) as Hz1. pose proof (Qlt_floor z) as Hz2.
  rewrite inject_Z_plus in Hx2, Hz2. change (inject_Z 1) with 1 in Hx2, Hz2.
  destruct (Z.eq_dec (Qfloor x) (Qfloor z)) as [Ef | Nf].
  - rewrite Ef in *.
    destruct (x - inject_Z (Qfloor z) ?= 1 # 2) eqn:Cx;
      destruct (z - inject_Z (Qfloor z) ?= 1 # 2) eqn:Cz;
      try (destruct (Z.even (Qfloor z))); try lia; exfalso;
      repeat match goal with
             | H : (_ ?= _) = Eq |- _ => apply Qeq_alt in H
             | H : (_ ?= _) = Lt |- _ => apply Qlt_alt in H
             | H : (_ ?= _) = Gt |- _ => apply Qgt_alt in H
             end; lra.
  - assert (Hlt : (Qfloor x + 1 <= Qfloor z)%Z) by lia.
    destruct (x - inject_Z (Qfloor x) ?= 1 # 2);
      destruct (z - inject_Z (Qfloor z) ?= 1 # 2);
      try (destruct (Z.even (Qfloor x))); try (destruct (Z.even (Qfloor z))); lia.
Qed.

(** C6, as the code has it.  [set_position_size] has no guard on the stop
    distance.  On an account held in the quote currency a zero distance
    reaches the division, which raises ZeroDivisionError, and any other
    distance, negative ones included, is divided by and the rounded
    quotient returned.  On any other account the exchange rate is asked
    for first: what [get_base_exchange] raises leaves the function, a rate
    of zero raises ZeroDivisionError at [1 / rate], and otherwise the
    same division is made with the funds scaled by [1 / rate].  A size
    returned for a negative distance is not positive when the available
    funds are not negative (and the rate, where one is used, is
    positive). *)
Theorem set_position_size_divides_unguarded (ib : Venue) (sym : string) (sl : Q) :
  (String.eqb (account_base ib) (last3 sym) = true ->
   set_position_size ib sym (VNum sl)
     = if Qeq_bool sl 0 then Raise ZeroDivisionError
       else Ok (py_round (get_available_funds ib * (5 # 1000) / sl))) /\
  (String.eqb (account_base ib) (last3 sym) = false ->
   set_position_size ib sym (VNum sl)
     = match get_base_exchange ib sym with
       | Raise e => Raise e
       | Ok fx =>
           if Qeq_bool fx 0 || Qeq_bool sl 0 then Raise ZeroDivisionError
           else Ok (py_round (1 / fx * (get_available_funds ib * (5 # 1000)) / sl))
       end) /\
  (forall q,
      set_position_size ib sym (VNum sl) = Ok q ->
      sl < 0 ->
      0 <= get_available_funds ib ->
      String.eqb (account_base ib) (last3 sym) = true \/
      (exists fx, get_base_exchange ib sym = Ok fx /\ 0 < fx) ->
      (q <= 0)%Z).
Proof.
  assert (Hsame : String.eqb (account_base ib) (last3 sym) = true ->
                  set_position_size ib sym (VNum sl)
                  = if Qeq_bool sl 0 then Raise ZeroDivisionError
                    else Ok (py_round (get_available_funds ib * (5 # 1000) / sl))).
  { intros Hb. unfold set_position_size. rewrite Hb, as_num_VNum, bind_Ok.
    unfold py_div. destruct (Qeq_bool sl 0); reflexivity. }
  assert (Hcross : String.eqb (account_base ib) (last3 sym) = false ->
                   set_position_size ib sym (VNum sl)
                   = match get_base_exchange ib sym with
                     | Raise e => Raise e
                     | Ok fx =>
                         if Qeq_bool fx 0 || Qeq_bool sl 0 then Raise ZeroDivisionError
                         else Ok (py_round (1 / fx * (get_available_funds ib * (5 # 1000))
                                            / sl))
                     end).
  { intros Hb. unfold set_position_size. rewrite Hb.
    destruct (get_base_exchange ib sym) as [fx | e]; [| reflexivity].
    rewrite bind_Ok. unfold py_div.
    destruct (Qeq_bool fx 0); [reflexivity |]. rewrite bind_Ok, as_num_VNum, bind_Ok.
    destruct (Qeq_bool sl 0); reflexivity. }
  split; [exact Hsame |]. split; [exact Hcross |].
  intros q Hq Hsl Hf Hrate.
  assert (Hinv : 0 < - / sl).
  { assert (H : 0 < / - sl) by (apply Qinv_lt_0_compat; lra).
    assert (E : - / sl == / - sl) by (field; lra). rewrite E. exact H. }
  destruct (String.eqb (account_base ib) (last3 sym)) eqn:Hb.
  - rewrite (Hsame eq_refl) in Hq.
    destruct (Qeq_bool sl 0); [discriminate |]. injection Hq as <-.
    apply py_round_nonpos.
    assert (E : get_available_funds ib * (5 # 1000) / sl
                == - (get_available_funds ib * (5 # 1000) * - / sl)) by (field; lra).
    rewrite E.
    assert (H : 0 <= get_available_funds ib * (5 # 1000) * - / sl)
      by (apply Qmult_le_0_compat; lra).
    lra.
  - destruct Hrate as [Habs | (fx & Hfx & Hpos)]; [discriminate |].
    rewrite (Hcross eq_refl), Hfx in Hq.
    destruct (Qeq_bool fx 0 || Qeq_bool sl 0); [discriminate |]. injection Hq as <-.
    apply py_round_nonpos.
    assert (E : 1 / fx * (get_available_funds ib * (5 # 1000)) / sl
                == - (/ fx * (get_available_funds ib * (5 # 1000)) * - / sl))
      by (field; lra).
    rewrite E.
    assert (Hfi : 0 < / fx) by (apply Qinv_lt_0_compat; exact Hpos).
    assert (H1 : 0 <= / fx * (get_available_funds ib * (5 # 1000)))
      by (apply Qmult_le_0_compat; lra).
    assert (H : 0 <= / fx * (get_available_funds ib * (5 # 1000)) * - / sl)
      by (apply Qmult_le_0_compat; lra).
    lra.
Qed.

Lemma set_position_size_divides_unguarded_witness :
  set_position_size (sample_venue 0) "EUR.USD" (VNum 0) = Raise ZeroDivisionError /\
  set_position_size (sample_venue 0) "EUR.USD" (VNum (- (6 # 1000)))
    = Ok (py_round (get_available_funds (sample_venue 0) * (5 # 1000) / - (6 # 1000))) /\
  set_position_size (sample_venue 0) "GBP.JPY" (VNum (- (6 # 1000)))
    = Ok (py_round (1 / (1 / 1) * (get_available_funds (sample_venue 0) * (5 # 1000))
                    / - (6 # 1000))) /\
  set_position_size no_funds_venue "EUR.USD" (VNum (6 # 1000))
    = Raise (AssertionError "") /\
  (-83333 <= 0)%Z.
Proof.
  split; [| split; [| split; [| split]]].
  - apply (proj1 (set_position_size_divides_unguarded (sample_venue 0) "EUR.USD" 0)).
    reflexivity.
  - apply (proj1 (set_position_size_divides_unguarded (sample_venue 0) "EUR.USD"
                    (- (6 # 1000)))).
    reflexivity.
  - apply (proj1 (proj2 (set_position_size_divides_unguarded (sample_venue 0) "GBP.JPY"
                           (- (6 # 1000))))).
    reflexivity.
  - apply (proj1 (proj2 (set_position_size_divides_unguarded no_funds_venue "EUR.USD"
                           (6 # 1000)))).
    reflexivity.
  - apply (proj2 (proj2 (set_position_size_divides_unguarded (sample_venue 0) "EUR.USD"
                           (- (6 # 1000))))).
    + reflexivity.
    + reflexivity.
    + discriminate.
    + left. reflexivity.
Defined.

(** C6 as the specification words it fails at a stop distance of -0.006 on 100000 of
    available funds: the call does not fail, it returns -83333. *)
Lemma set_position_size_negative_stop :
  set_position_size (sample_venue 0) "EUR.USD" (VNum (- (6 # 1000))) = Ok (-83333)%Z.
Proof. reflexivity. Qed.

(** On negative available funds the two signs cancel: a stop distance of
    -0.006 on funds of -100000 gives a positive size. *)
Lemma set_position_size_negative_funds :
  set_position_size overdrawn_venue "EUR.USD" (VNum (- (6 # 1000))) = Ok 83333%Z.
Proof. reflexivity. Qed.

(** ** The run loop *)

Lemma run_app {world : Type} (body : string -> world -> world * option exn)
    (pre post : list string) (w : world) :
  run body (pre ++ post) w =
    match run body pre w with
    | (w', None) => run body post w'
    | (w', Some e) => (w', Some e)
    end.
Proof.
  revert w. induction pre as [| i pre IH]; intros w; [reflexivity |].
  cbn [app run]. destruct (body i w) as [w' [e |]]; [reflexivity | apply IH].
Qed.

(** C7, as the code has it.  When the instruments before [i] run through
    and the body raises on [i], the loop ends there with that exception:
    the result is the one of the batch cut after [i], whatever instruments
    follow it. *)
Theorem run_stops_at_first_failure {world : Type}
    (body : string -> world -> world * option exn)
    (pre post : list string) (i : string) (w w1 w2 : world) (e : exn) :
  run body pre w = (w1, None) ->
  body i w1 = (w2, Some e) ->
  run body (pre ++ i :: post) w = (w2, Some e) /\
  run body (pre ++ i :: post) w = run body (pre ++ [i]) w.
Proof.
  intros Hpre Hi. rewrite !run_app, Hpre. cbn [run]. rewrite Hi. split; reflexivity.
Qed.

Lemma run_stops_at_first_failure_witness :
  run (setup_body quiet_venue) ([] ++ "GBP.JPY" :: ["EUR.USD"; "AUD.CAD"]) []
    = ([], Some ZeroDivisionError) /\
  run (setup_body quiet_venue) ([] ++ "GBP.JPY" :: ["EUR.USD"; "AUD.CAD"]) []
    = run (setup_body quiet_venue) ([] ++ ["GBP.JPY"]) [].
Proof.
  apply (run_stops_at_first_failure (setup_body quiet_venue) [] ["EUR.USD"; "AUD.CAD"]
           "GBP.JPY" [] [] [] ZeroDivisionError); reflexivity.
Defined.

(** C7 as the specification words it fails on the three instruments of the main programme
    when the stop distance of the first one rounds to zero: its setup
    raises ZeroDivisionError, the loop ends, and neither EUR.USD nor
    AUD.CAD is reached, although both run through on their own. *)
Lemma run_aborts_batch :
  run (setup_body quiet_venue) main_instruments [] = ([], Some ZeroDivisionError) /\
  run (setup_body quiet_venue) ["EUR.USD"; "AUD.CAD"] [] = (["EUR.USD"; "AUD.CAD"], None).
Proof. split; reflexivity. Qed.

(** * Further properties of the code *)

(** ** Rounding and the price grid *)

Lemma py_round_comp (x y : Q) : x == y -> py_round x = py_round y.
Proof.
  intros H. unfold py_round. rewrite (Qfloor_comp _ _ H).
  assert (Hc : (x - inject_Z (Qfloor y) ?= 1 # 2) = (y - inject_Z (Qfloor y) ?= 1 # 2)).
  { apply Qcompare_comp; [rewrite H |]; reflexivity. }
  rewrite Hc. reflexivity.
Qed.

(** The rounded value is within one half of the number. *)
Lemma py_round_near (x : Q) :
  inject_Z (py_round x) - (1 # 2) <= x /\ x <= inject_Z (py_round x) + (1 # 2).
Proof.
  unfold py_round.
  pose proof (Qfloor_le x) as Hlo. pose proof (Qlt_floor x) as Hhi.
  rewrite inject_Z_plus in Hhi. change (inject_Z 1) with 1 in Hhi.
  destruct (x - inject_Z (Qfloor x) ?= 1 # 2) eqn:E.
  - apply Qeq_alt in E. destruct (Z.even (Qfloor x)).
    + split; lra.
    + rewrite inject_Z_plus. change (inject_Z 1) with 1. split; lra.
  - apply Qlt_alt in E. split; lra.
  - apply Qgt_alt in E. rewrite inject_Z_plus. change (inject_Z 1) with 1. split; lra.
Qed.

Lemma py_round_inject_Z (n : Z) : py_round (inject_Z n) = n.
Proof.
  unfold py_round. rewrite Qfloor_Z.
  assert (E : (inject_Z n - inject_Z n ?= 1 # 2) = Lt).
  { apply Qlt_alt. unfold Qminus. rewrite Qplus_opp_r. reflexivity. }
  rewrite E. reflexivity.
Qed.

Lemma py_round_mono (x y : Q) : x <= y -> (py_round x <= py_round y)%Z.
Proof.
  intros Hxy.
  destruct (py_round_near x) as [Hx1 Hx2]. destruct (py_round_near y) as [Hy1 Hy2].
  destruct (Z_le_gt_dec (py_round x) (py_round y)) as [Hle | Hgt]; [exact Hle |].
  exfalso.
  assert (Hz : (py_round y + 1 <= py_round x)%Z) by lia.
  rewrite Zle_Qle, inject_Z_plus in Hz. change (inject_Z 1) with 1 in Hz.
  assert (Heq : x == y) by lra.
  apply py_round_comp in Heq. lia.
Qed.

Lemma py_round_nonneg (x : Q) : 0 <= x -> (0 <= py_round x)%Z.
Proof.
  intros H. change 0%Z with (py_round 0). apply py_round_mono. exact H.
Qed.

Lemma py_round_small (x : Q) : - (1 # 2) <= x -> x <= 1 # 2 -> py_round x = 0%Z.
Proof.
  intros Hlo Hhi. destruct (py_round_near x) as [H1 H2].
  assert (Hn : (-1 <= py_round x <= 1)%Z).
  { assert (Ha : inject_Z (-2) < inject_Z (py_round x))
      by (change (inject_Z (-2)) with (-2 # 1); lra).
    assert (Hb : inject_Z (py_round x) < inject_Z 2)
      by (change (inject_Z 2) with (2 # 1); lra).
    rewrite <- Zlt_Qlt in Ha, Hb. lia. }
  assert (Hc : py_round x = (-1)%Z \/ py_round x = 0%Z \/ py_round x = 1%Z) by lia.
  destruct Hc as [Hc | [Hc | Hc]]; [| exact Hc |]; exfalso; rewrite Hc in H1, H2.
  - assert (E : x == - (1 # 2)) by (change (inject_Z (-1)) with (-1 # 1) in *; lra).
    apply py_round_comp in E. rewrite Hc in E. discriminate E.
  - assert (E : x == 1 # 2) by (change (inject_Z 1) with (1 # 1) in *; lra).
    apply py_round_comp in E. rewrite Hc in E. discriminate E.
Qed.

Lemma price_increment_cases (sym : string) (inc : Q) :
  price_increment sym = Some inc -> inc = 5 # 100000 \/ inc = 5 # 1000.
Proof.
  unfold price_increment.
  destruct (String.eqb sym "EUR.USD"); [intros [= <-]; auto |].
  destruct (String.eqb sym "GBP.JPY"); [intros [= <-]; auto |].
  destruct (String.eqb sym "AUD.CAD"); [intros [= <-]; auto | discriminate].
Qed.

Lemma adjust_known (sym : string) (inc v : Q) :
  price_increment sym = Some inc ->
  adjust_for_price_increments sym v = VNum (inc * inject_Z (py_round (v / inc))).
Proof. intros H. unfold adjust_for_price_increments. rewrite H. reflexivity. Qed.


(** X2.  On a known instrument the quantized price is a whole number of
    ticks and lies within half a tick of the value. *)
Theorem adjust_for_price_increments_nearest (sym : string) (inc v : Q) :
  price_increment sym = Some inc ->
  exists n : Z,
    adjust_for_price_increments sym v = VNum (inc * inject_Z n) /\
    Qabs (inc * inject_Z n - v) <= inc / 2.
Proof.
  intros Hinc. exists (py_round (v / inc)).
  split; [apply adjust_known; exact Hinc |].
  destruct (py_round_near (v / inc)) as [H1 H2].
  apply Qabs_Qle_condition.
  destruct (price_increment_cases _ _ Hinc) as [-> | ->].
  - change (v / (5 # 100000)) with (v * (100000 # 5)) in *.
    change ((5 # 100000) / 2) with (5 # 200000). split; lra.
  - change (v / (5 # 1000)) with (v * (1000 # 5)) in *.
    change ((5 # 1000) / 2) with (5 # 2000). split; lra.
Qed.

Lemma adjust_for_price_increments_nearest_witness :
  exists n : Z,
    adjust_for_price_increments "EUR.USD" (617 # 100000)
      = VNum ((5 # 100000) * inject_Z n) /\
    Qabs ((5 # 100000) * inject_Z n - (617 # 100000)) <= (5 # 100000) / 2.
Proof.
  apply (adjust_for_price_increments_nearest "EUR.USD" (5 # 100000) (617 # 100000)).
  reflexivity.
Defined.

(** ** Stop distance, exchange rate and sizing *)

(** X3.  When the ATR of a known instrument is at most one tick, the
    half-ATR stop distance quantizes to zero and the variable setup of 0.2
    raises ZeroDivisionError at its division by the stop distance. *)
Theorem setup_small_atr_divides_by_zero (ib : Venue) (sym : string) (inc fx : Q) :
  price_increment sym = Some inc ->
  get_base_exchange ib sym = Ok fx ->
  Qabs (atr (get_indicators ib sym)) <= inc ->
  get_atr_multiple ib sym (1 # 2) = VNum (inc * inject_Z 0) /\
  V02.initial_variable_setup ib sym = Raise ZeroDivisionError.
Proof.
  intros Hinc Hfx Hatr.
  assert (Hsl : get_atr_multiple ib sym (1 # 2) = VNum (inc * inject_Z 0)).
  { unfold get_atr_multiple. rewrite (adjust_known _ _ _ Hinc). do 3 f_equal.
    apply Qabs_Qle_condition in Hatr. destruct Hatr as [Ha Hb].
    destruct (price_increment_cases _ _ Hinc) as [-> | ->].
    - change ((1 # 2) * atr (get_indicators ib sym) / (5 # 100000))
        with ((1 # 2) * atr (get_indicators ib sym) * (100000 # 5)).
      apply py_round_small; lra.
    - change ((1 # 2) * atr (get_indicators ib sym) / (5 # 1000))
        with ((1 # 2) * atr (get_indicators ib sym) * (1000 # 5)).
      apply py_round_small; lra. }
  split; [exact Hsl |].
  unfold V02.initial_variable_setup. rewrite Hfx, bind_Ok, Hsl, as_num_VNum, bind_Ok.
  rewrite py_div_zero; [reflexivity |].
  change (inject_Z 0) with 0. ring.
Qed.

Lemma setup_small_atr_divides_by_zero_witness :
  get_atr_multiple quiet_venue "GBP.JPY" (1 # 2) = VNum ((5 # 1000) * inject_Z 0) /\
  V02.initial_variable_setup quiet_venue "GBP.JPY" = Raise ZeroDivisionError.
Proof.
  apply (setup_small_atr_divides_by_zero quiet_venue "GBP.JPY" (5 # 1000) (1 / 1));
    [reflexivity | reflexivity | discriminate].
Defined.

Lemma length_append (a b : string) :
  String.length (a +:+ b) = (String.length a + String.length b)%nat.
Proof.
  induction a as [| c a IH]; [reflexivity |].
  change (S (String.length (a +:+ b)) = S (String.length a + String.length b)).
  f_equal. exact IH.
Qed.

Lemma valid_symbol_quote (sym : string) :
  valid_symbol sym = true -> String.length (last3 sym) = 3%nat.
Proof.
  unfold valid_symbol. intros H.
  apply orb_true_iff in H. destruct H as [H | H];
    [apply orb_true_iff in H; destruct H as [H | H] |];
    apply String.eqb_eq in H; subst sym; reflexivity.
Qed.

(** The pair built from the account currency and a three-letter quote
    currency passes the check of [Forex] exactly when the account currency
    has three letters. *)
Lemma Forex_pair (base quote : string) :
  String.length quote = 3%nat ->
  Forex (base +:+ quote) = py_assert (String.length base =? 3)%nat "" /\
  Forex (quote +:+ base) = py_assert (String.length base =? 3)%nat "".
Proof.
  intros Hq. unfold Forex.
  assert (H1 : String.eqb (base +:+ quote) "" = false).
  { apply String.eqb_neq. intros E. apply (f_equal String.length) in E.
    rewrite length_append, Hq in E. cbn in E. lia. }
  assert (H2 : String.eqb (quote +:+ base) "" = false).
  { apply String.eqb_neq. intros E. apply (f_equal String.length) in E.
    rewrite length_append, Hq in E. cbn in E. lia. }
  rewrite H1, H2, !length_append, Hq.
  assert (E1 : (String.length base + 3 =? 6)%nat = (String.length base =? 3)%nat)
    by (destruct (Nat.eqb_spec (String.length base + 3) 6),
                 (Nat.eqb_spec (String.length base) 3); lia || reflexivity).
  assert (E2 : (3 + String.length base =? 6)%nat = (String.length base =? 3)%nat)
    by (destruct (Nat.eqb_spec (3 + String.length base) 6),
                 (Nat.eqb_spec (String.length base) 3); lia || reflexivity).
  rewrite E1, E2. split; reflexivity.
Qed.

(** X4.  [get_base_exchange] ends in one of four ways: a rate, only for
    one of the three listed pairs, equal to 1 when the account currency is
    the quote currency and otherwise only for an account currency of three
    letters; the assertion failure "Invalid Currency!", exactly for an
    unlisted pair; the assertion failure without a message of [Forex], for
    a listed pair when the account currency has not three letters (no
    AvailableFunds row leaves it empty); or ZeroDivisionError, only for a
    pair not quoted in USD whose cross price reads 0. *)
Theorem get_base_exchange_outcomes (ib : Venue) (sym : string) :
  match get_base_exchange ib sym with
  | Ok fx =>
      valid_symbol sym = true /\
      (String.eqb (account_base ib) (last3 sym) = true -> fx = 1) /\
      (String.eqb (account_base ib) (last3 sym) = false ->
       String.length (account_base ib) = 3%nat)
  | Raise (AssertionError msg) =>
      (valid_symbol sym = false /\ msg = "Invalid Currency!") \/
      (valid_symbol sym = true /\
       String.eqb (account_base ib) (last3 sym) = false /\
       String.length (account_base ib) <> 3%nat /\ msg = "")
  | Raise ZeroDivisionError =>
      valid_symbol sym = true /\
      String.eqb (last3 sym) "USD" = false /\
      String.length (account_base ib) = 3%nat /\
      marketPrice ib (account_base ib +:+ last3 sym) == 0
  | Raise _ => False
  end.
Proof.
  unfold get_base_exchange, py_assert at 1.
  destruct (valid_symbol sym) eqn:Hv; [| left; split; reflexivity].
  rewrite bind_Ok. cbv zeta.
  destruct (String.eqb (account_base ib) (last3 sym)) eqn:Hb.
  { split; [reflexivity | split; [reflexivity | discriminate]]. }
  destruct (Forex_pair (account_base ib) (last3 sym) (valid_symbol_quote _ Hv)) as [F1 F2].
  rewrite F1, F2. unfold py_assert.
  destruct (Nat.eqb_spec (String.length (account_base ib)) 3) as [Hlen | Hlen].
  - rewrite !bind_Ok.
    destruct (String.eqb (last3 sym) "USD") eqn:Hq; cbn [negb].
    { split; [reflexivity | split; [discriminate | intros _; exact Hlen]]. }
    unfold py_div.
    destruct (Qeq_bool (marketPrice ib (account_base ib +:+ last3 sym)) 0) eqn:Hp.
    + apply Qeq_bool_iff in Hp. repeat split; assumption.
    + split; [reflexivity | split; [discriminate | intros _; exact Hlen]].
  - destruct (negb (String.eqb (last3 sym) "USD"));
      right; repeat split; assumption.
Qed.

(** Without an AvailableFunds row the pair built for EUR.USD is "USD". *)
Example get_base_exchange_no_funds_row :
  account_base no_funds_venue = "" /\
  get_base_exchange no_funds_venue "EUR.USD" = Raise (AssertionError "") /\
  get_base_exchange no_funds_venue "GBP.JPY" = Raise (AssertionError "").
Proof. repeat split; reflexivity. Qed.

Lemma first_available_funds_app (l1 l2 : list AccountValue) (a : AccountValue) :
  Forall (fun v => String.eqb (av_tag v) "AvailableFunds" = false) l1 ->
  String.eqb (av_tag a) "AvailableFunds" = true ->
  first_available_funds (l1 ++ a :: l2) = av_value a.
Proof.
  intros Hl1 Ha. induction Hl1 as [| v l1 Hv _ IH]; cbn [app first_available_funds].
  - rewrite Ha. reflexivity.
  - rewrite Hv. exact IH.
Qed.

Lemma base_fold_skip (l : list AccountValue) (base : string) :
  Forall (fun v => String.eqb (av_tag v) "AvailableFunds" = false) l ->
  fold_left (fun base v =>
               if String.eqb (av_tag v) "AvailableFunds" then av_currency v else base)
            l base = base.
Proof.
  intros Hl. revert base. induction Hl as [| v l Hv _ IH]; intros base; [reflexivity |].
  cbn [fold_left]. rewrite Hv. apply IH.
Qed.

(** X5.  With more than one AvailableFunds entry, the funds are those of
    the first entry while the account currency is that of the last. *)
Theorem funds_first_currency_last (ib : Venue) (l1 mid l2 : list AccountValue)
    (a b : AccountValue) :
  accountValues ib = l1 ++ a :: mid ++ b :: l2 ->
  String.eqb (av_tag a) "AvailableFunds" = true ->
  String.eqb (av_tag b) "AvailableFunds" = true ->
  Forall (fun v => String.eqb (av_tag v) "AvailableFunds" = false) l1 ->
  Forall (fun v => String.eqb (av_tag v) "AvailableFunds" = false) l2 ->
  get_available_funds ib = av_value a /\ account_base ib = av_currency b.
Proof.
  intros Hav Ha Hb Hl1 Hl2. unfold get_available_funds, account_base. rewrite Hav.
  split; [apply first_available_funds_app; assumption |].
  replace (l1 ++ a :: mid ++ b :: l2) with ((l1 ++ a :: mid) ++ b :: l2)
    by (rewrite <- app_assoc; reflexivity).
  rewrite fold_left_app. cbn [fold_left]. rewrite Hb. apply base_fold_skip. exact Hl2.
Qed.

Lemma funds_first_currency_last_witness :
  get_available_funds
    {| accountValues :=
         [ {| av_tag := "AvailableFunds"; av_currency := "USD"; av_value := 100000 |};
           {| av_tag := "AvailableFunds"; av_currency := "EUR"; av_value := 90000 |} ];
       accountSummary := []; marketPrice := fun _ => 1;
       get_indicators := get_indicators quiet_venue |} = 100000 /\
  account_base
    {| accountValues :=
         [ {| av_tag := "AvailableFunds"; av_currency := "USD"; av_value := 100000 |};
           {| av_tag := "AvailableFunds"; av_currency := "EUR"; av_value := 90000 |} ];
       accountSummary := []; marketPrice := fun _ => 1;
       get_indicators := get_indicators quiet_venue |} = "EUR".
Proof.
  apply (funds_first_currency_last _ [] [] []
           {| av_tag := "AvailableFunds"; av_currency := "USD"; av_value := 100000 |}
           {| av_tag := "AvailableFunds"; av_currency := "EUR"; av_value := 90000 |});
    first [reflexivity | constructor].
Defined.

Lemma Qdiv_le_half (e sl : Q) : 0 < sl -> (e / sl <= 1 # 2 <-> e <= sl / 2).
Proof.
  intros Hsl. change (sl / 2) with (sl * (1 # 2)). split; intros H.
  - assert (E : e == e / sl * sl) by (field; lra). rewrite E.
    rewrite (Qmult_comm sl). apply Qmult_le_compat_r; lra.
  - apply Qle_shift_div_r; [exact Hsl | lra].
Qed.

(** X6.  On an account held in the quote currency, with non-negative
    available funds and a positive stop distance, the position size is a
    non-negative integer, and it is 0 exactly when 0.5% of the funds is at
    most half the stop distance. *)
Theorem set_position_size_nonneg (ib : Venue) (sym : string) (sl : Q) :
  String.eqb (account_base ib) (last3 sym) = true ->
  0 <= get_available_funds ib ->
  0 < sl ->
  exists q : Z,
    set_position_size ib sym (VNum sl) = Ok q /\
    (0 <= q)%Z /\
    (q = 0%Z <-> get_available_funds ib * (5 # 1000) <= sl / 2).
Proof.
  intros Hb Hf Hsl. unfold set_position_size. rewrite Hb, as_num_VNum, bind_Ok.
  rewrite py_div_nonzero by lra. rewrite bind_Ok.
  set (e := get_available_funds ib * (5 # 1000)).
  assert (He : 0 <= e) by (unfold e; lra).
  assert (Hq : 0 <= e / sl) by (apply Qle_shift_div_l; lra).
  exists (py_round (e / sl)). split; [reflexivity |].
  split; [apply py_round_nonneg; exact Hq |].
  rewrite <- (Qdiv_le_half e sl Hsl). split; intros H.
  - destruct (py_round_near (e / sl)) as [_ H2]. rewrite H in H2.
    change (inject_Z 0) with 0 in H2. lra.
  - apply py_round_small; lra.
Qed.

Lemma set_position_size_nonneg_witness :
  exists q : Z,
    set_position_size (sample_venue 0) "EUR.USD" (VNum (6 # 1000)) = Ok q /\
    (0 <= q)%Z /\
    (q = 0%Z <-> get_available_funds (sample_venue 0) * (5 # 1000) <= (6 # 1000) / 2).
Proof.
  apply (set_position_size_nonneg (sample_venue 0) "EUR.USD" (6 # 1000));
    [reflexivity | discriminate | reflexivity].
Defined.

(** ** Initial entries *)

Lemma set_position_size_ok_num (ib : Venue) (sym : string) (v : value) (q : Z) :
  set_position_size ib sym v = Ok q -> exists sl, as_num v = Ok sl /\ ~ sl == 0.
Proof.
  unfold set_position_size.
  destruct (String.eqb (account_base ib) (last3 sym)).
  - destruct (as_num v) as [sl | e]; [| discriminate]. rewrite bind_Ok.
    unfold py_div. destruct (Qeq_bool sl 0) eqn:E; [discriminate |].
    intros _. exists sl. split; [reflexivity |]. apply Qeq_bool_neq. exact E.
  - destruct (get_base_exchange ib sym) as [fx | e]; [| discriminate]. rewrite bind_Ok.
    destruct (py_div 1 fx) as [inv | e]; [| discriminate]. rewrite bind_Ok.
    destruct (as_num v) as [sl | e]; [| discriminate]. rewrite bind_Ok.
    unfold py_div. destruct (Qeq_bool sl 0) eqn:E; [discriminate |].
    intros _. exists sl. split; [reflexivity |]. apply Qeq_bool_neq. exact E.
Qed.

(** The stop distance of a known instrument under a non-negative ATR. *)
Lemma get_atr_multiple_nonneg (ib : Venue) (sym : string) (inc : Q) :
  price_increment sym = Some inc ->
  0 <= atr (get_indicators ib sym) ->
  exists sl, get_atr_multiple ib sym (1 # 2) = VNum sl /\ 0 <= sl.
Proof.
  intros Hinc Hatr. unfold get_atr_multiple. rewrite (adjust_known _ _ _ Hinc).
  eexists. split; [reflexivity |].
  assert (Hn : (0 <= py_round ((1 # 2) * atr (get_indicators ib sym) / inc))%Z).
  { apply py_round_nonneg.
    destruct (price_increment_cases _ _ Hinc) as [-> | ->];
      apply Qle_shift_div_l; lra. }
  rewrite Zle_Qle in Hn. change (inject_Z 0) with 0 in Hn.
  destruct (price_increment_cases _ _ Hinc) as [-> | ->]; lra.
Qed.

(** X7.  Under a non-negative ATR, whenever [generate_initial_entry_info]
    returns, the long and the short entry carry the same quantity (the
    position size), the long stop lies strictly below the long entry
    price and the short stop strictly above the short entry price. *)
Theorem initial_entries_bracket (ib : Venue) (sym : string) :
  0 <= atr (get_indicators ib sym) ->
  match V02.generate_initial_entry_info ib sym with
  | Ok info =>
      exists (long_entry short_entry : gmap string value) (q : Z) (pl sll ps sls : Q),
        info = dict [("long_entry", VDict long_entry); ("short_entry", VDict short_entry)] /\
        set_position_size ib sym (get_atr_multiple ib sym (1 # 2)) = Ok q /\
        long_entry !! "totalQuantity" = Some (VNum (inject_Z q)) /\
        short_entry !! "totalQuantity" = Some (VNum (inject_Z q)) /\
        long_entry !! "priceCondition" = Some (VNum pl) /\
        long_entry !! "slPrice" = Some (VNum sll) /\ sll < pl /\
        short_entry !! "priceCondition" = Some (VNum ps) /\
        short_entry !! "slPrice" = Some (VNum sls) /\ ps < sls
  | Raise _ => True
  end.
Proof.
  intros Hatr. unfold V02.generate_initial_entry_info. cbv zeta.
  destruct (set_position_size ib sym (get_atr_multiple ib sym (1 # 2))) as [q | e] eqn:Hq;
    [| exact I].
  rewrite bind_Ok.
  destruct (set_position_size_ok_num _ _ _ _ Hq) as (sl & Hsl & Hne).
  destruct (price_increment sym) as [inc |] eqn:Hinc.
  2:{ unfold get_atr_multiple, adjust_for_price_increments in Hsl.
      rewrite Hinc in Hsl. discriminate Hsl. }
  destruct (get_atr_multiple_nonneg ib sym inc Hinc Hatr) as (sl' & Hsl' & Hpos).
  rewrite Hsl' in Hsl. cbn [as_num] in Hsl. injection Hsl as <-.
  rewrite Hsl'. rewrite !(adjust_known _ _ _ Hinc).
  unfold value_sub, value_add. rewrite !as_num_VNum, !bind_Ok.
  eexists _, _, q, _, _, _, _.
  split; [reflexivity |]. split; [reflexivity |].
  repeat (split; [reflexivity |]).
  split; [lra |]. repeat (split; [reflexivity |]). lra.
Qed.

Lemma initial_entries_bracket_witness :
  match V02.generate_initial_entry_info (sample_venue 0) "EUR.USD" with
  | Ok info =>
      exists (long_entry short_entry : gmap string value) (q : Z) (pl sll ps sls : Q),
        info = dict [("long_entry", VDict long_entry); ("short_entry", VDict short_entry)] /\
        set_position_size (sample_venue 0) "EUR.USD"
          (get_atr_multiple (sample_venue 0) "EUR.USD" (1 # 2)) = Ok q /\
        long_entry !! "totalQuantity" = Some (VNum (inject_Z q)) /\
        short_entry !! "totalQuantity" = Some (VNum (inject_Z q)) /\
        long_entry !! "priceCondition" = Some (VNum pl) /\
        long_entry !! "slPrice" = Some (VNum sll) /\ sll < pl /\
        short_entry !! "priceCondition" = Some (VNum ps) /\
        short_entry !! "slPrice" = Some (VNum sls) /\ ps < sls
  | Raise _ => True
  end.
Proof.
  apply (initial_entries_bracket (sample_venue 0) "EUR.USD"). discriminate.
Defined.

(** On the sample account the initial entries are built: 83333 units,
    long at 1.2 with its stop at 1.194, short at 1.0 with its stop at 1.006. *)
Example generate_initial_entry_info_sample :
  num_at (store_at (V02.generate_initial_entry_info (sample_venue 0) "EUR.USD")
            ["long_entry"]) "totalQuantity" = Some 83333 /\
  num_at (store_at (V02.generate_initial_entry_info (sample_venue 0) "EUR.USD")
            ["long_entry"]) "slPrice" = Some (597 # 500) /\
  num_at (store_at (V02.generate_initial_entry_info (sample_venue 0) "EUR.USD")
            ["short_entry"]) "slPrice" = Some (503 # 500).
Proof. repeat split; vm_compute; reflexivity. Qed.

(** ** Bracket legs *)

Lemma build_getReqId {A} (f : Z -> build A) (n : Z) :
  (getReqId ≫= f) n = f n (n + 1)%Z.
Proof. reflexivity. Qed.

(** One step of a computation that builds orders: a lookup that raises
    ends it, a lookup that succeeds is bound. *)
Ltac step_lift :=
  match goal with
  | |- context [(lift ?r ≫= ?f) ?n] =>
      let E := fresh "E" in
      destruct r eqn:E; [rewrite build_bind_Ok | exact I]
  end.

(** X8.  Whenever [create_unit_leg] returns, it has drawn three
    consecutive request ids for the entry, the stop and the exit; the stop
    and the exit name the entry as their parent, carry the entry's
    quantity and order type and the same action as each other; and only
    the exit is transmitted. *)
Theorem create_unit_leg_shape (store : value) (sym tag : string) (n : Z) :
  match V02.create_unit_leg store sym tag n with
  | Ok (leg, n') =>
      n' = (n + 3)%Z /\
      map orderId (V02.leg_orders leg) = [n; (n + 1)%Z; (n + 2)%Z] /\
      map parentId (V02.leg_orders leg)
        = [None; Some (VNum (inject_Z n)); Some (VNum (inject_Z n))] /\
      map transmit (V02.leg_orders leg) = [false; false; true] /\
      totalQuantity (V02.sl_order leg) = totalQuantity (V02.entry_order leg) /\
      totalQuantity (V02.exit_order leg) = totalQuantity (V02.entry_order leg) /\
      orderType (V02.sl_order leg) = orderType (V02.entry_order leg) /\
      orderType (V02.exit_order leg) = orderType (V02.entry_order leg) /\
      action (V02.exit_order leg) = action (V02.sl_order leg)
  | Raise _ => True
  end.
Proof.
  unfold V02.create_unit_leg.
  repeat step_lift.
  rewrite !build_getReqId.
  replace (n + 1 + 1 + 1)%Z with (n + 3)%Z by lia.
  replace (n + 1 + 1)%Z with (n + 2)%Z by lia.
  repeat split; reflexivity.
Qed.

Lemma create_unit_leg_run (store : value) (sym tag : string) (n : Z)
    (data_dict entry_data unit_info a ot q pc slp ref xp more : value) (suffix : string) :
  getitem store sym = Ok data_dict ->
  (if contains "long" tag then
     u ← getitem data_dict "unitInfo"; getitem u "longEntry"
   else if contains "short" tag then
     u ← getitem data_dict "unitInfo"; getitem u "shortEntry"
   else
     e ← getitem data_dict "entryInfo"; getitem e tag) = Ok entry_data ->
  getitem entry_data "action" = Ok a ->
  getitem entry_data "orderType" = Ok ot ->
  getitem entry_data "totalQuantity" = Ok q ->
  getitem entry_data "priceCondition" = Ok pc ->
  getitem entry_data "slPrice" = Ok slp ->
  getitem entry_data "orderRef" = Ok ref ->
  V02.ref_suffix ref = Ok suffix ->
  getitem data_dict "unitInfo" = Ok unit_info ->
  getitem unit_info "exitAllPrice" = Ok xp ->
  getitem entry_data "isMore" = Ok more ->
  exists leg,
    V02.create_unit_leg store sym tag n = Ok (leg, (n + 3)%Z) /\
    map orderId (V02.leg_orders leg) = [n; (n + 1)%Z; (n + 2)%Z] /\
    map totalQuantity (V02.leg_orders leg) = [q; q; q] /\
    action (V02.entry_order leg) = a /\
    conditions (V02.entry_order leg)
      = (if negb (is_ERROR pc) && negb (is_ERROR more)
         then [ {| isMore := more; price := pc |} ] else []) /\
    conditions (V02.sl_order leg)
      = (if negb (is_ERROR slp)
         then [ {| isMore := V02.py_not more; price := slp |} ] else []) /\
    conditions (V02.exit_order leg)
      = (if negb (is_ERROR xp)
         then [ {| isMore := V02.py_not more; price := xp |} ] else []).
Proof.
  intros H1 H2 H3 H4 H5 H6 H7 H8 H9 H10 H11 H12.
  unfold V02.create_unit_leg.
  rewrite H1, build_bind_Ok, H2, build_bind_Ok, H3, build_bind_Ok, H4, build_bind_Ok.
  rewrite H5, build_bind_Ok, H6, build_bind_Ok, H7, build_bind_Ok, H8, build_bind_Ok.
  rewrite H9, build_bind_Ok, H10, build_bind_Ok, H11, build_bind_Ok, H12, build_bind_Ok.
  rewrite !build_getReqId.
  replace (n + 1 + 1 + 1)%Z with (n + 3)%Z by lia.
  replace (n + 1 + 1)%Z with (n + 2)%Z by lia.
  eexists. split; [reflexivity |].
  repeat split; try reflexivity.
  - transitivity (if negb (is_ERROR slp) && negb (is_ERROR (V02.py_not more))
                  then [ {| isMore := V02.py_not more; price := slp |} ] else []);
      [reflexivity | destruct (is_ERROR slp); reflexivity].
  - transitivity (if negb (is_ERROR xp) && negb (is_ERROR (V02.py_not more))
                  then [ {| isMore := V02.py_not more; price := xp |} ] else []);
      [reflexivity | destruct (is_ERROR xp); reflexivity].
Qed.

Lemma clear_each_ok (m ud ei : gmap string value) (sym : string) (names : list string) :
  m !! sym = Some (VDict ud) ->
  ud !! "entryInfo" = Some (VDict ei) ->
  V02.clear_each (VDict m) sym names (VDict m) = Ok (VDict m).
Proof.
  intros Hm Hud. induction names as [| name names IH]; [reflexivity |].
  cbn [V02.clear_each].
  rewrite (getitem_dict _ _ _ Hm), bind_Ok, (getitem_dict _ _ _ Hud), bind_Ok.
  cbn [py_iter]. rewrite bind_Ok, clear_matching_id. exact IH.
Qed.

Lemma build_bind_unfold {A B} (m : build A) (f : A -> build B) (n : Z) :
  (m ≫= f) n = match m n with
               | Ok (a, n') => f a n'
               | Raise e => Raise e
               end.
Proof. reflexivity. Qed.

Lemma create_unit_leg_ids (store : value) (sym tag : string) (n n' : Z) (leg : V02.UnitLeg) :
  V02.create_unit_leg store sym tag n = Ok (leg, n') ->
  n' = (n + 3)%Z /\
  map orderId (V02.leg_orders leg) = [n; (n + 1)%Z; (n + 2)%Z] /\
  map transmit (V02.leg_orders leg) = [false; false; true].
Proof.
  unfold V02.create_unit_leg.
  repeat match goal with
         | |- context [(lift ?r ≫= ?f) ?n] =>
             let E := fresh "E" in
             destruct r eqn:E; [rewrite build_bind_Ok | discriminate]
         end.
  rewrite !build_getReqId.
  replace (n + 1 + 1 + 1)%Z with (n + 3)%Z by lia.
  replace (n + 1 + 1)%Z with (n + 2)%Z by lia.
  intros [= <- <-]. repeat split; reflexivity.
Qed.

(** X9.  Whenever [create_initial_entry_orders] returns, it has drawn
    seven consecutive request ids: six for the long leg followed by the
    short leg, each an entry, a stop and an exit of which only the exit is
    transmitted, and the seventh for the name of the one-cancels-all
    group, which holds exactly the two entries. *)
Theorem create_initial_entry_orders_shape (store : value) (sym : string) (n : Z) :
  match V02.create_initial_entry_orders store sym n with
  | Ok ((orders, oca), n') =>
      n' = (n + 7)%Z /\
      map orderId orders
        = [n; (n + 1)%Z; (n + 2)%Z; (n + 3)%Z; (n + 4)%Z; (n + 5)%Z] /\
      map transmit orders = [false; false; true; false; false; true] /\
      (exists e1 s1 x1 e2 s2 x2,
          orders = [e1; s1; x1; e2; s2; x2] /\ oca_orders oca = [e1; e2]) /\
      ocaGroup oca = "OCA_" +:+ sym +:+ pretty (n + 6)%Z /\
      ocaType oca = 1%Z
  | Raise _ => True
  end.
Proof.
  unfold V02.create_initial_entry_orders.
  rewrite build_bind_unfold.
  destruct (V02.create_unit_leg store sym "longEntry" n) as [[leg1 n1] | e] eqn:E1;
    [| exact I].
  rewrite build_bind_unfold.
  destruct (V02.create_unit_leg store sym "shortEntry" n1) as [[leg2 n2] | e] eqn:E2;
    [| exact I].
  destruct (create_unit_leg_ids _ _ _ _ _ _ E1) as (-> & Hid1 & Ht1).
  destruct (create_unit_leg_ids _ _ _ _ _ _ E2) as (-> & Hid2 & Ht2).
  rewrite build_getReqId. cbn [mret build_ret].
  replace (n + 3 + 3 + 1)%Z with (n + 7)%Z by lia.
  replace (n + 3 + 3)%Z with (n + 6)%Z in * by lia.
  replace (n + 3 + 1)%Z with (n + 4)%Z in Hid2 by lia.
  replace (n + 3 + 2)%Z with (n + 5)%Z in Hid2 by lia.
  rewrite !map_app, Hid1, Hid2, Ht1, Ht2.
  repeat split; try reflexivity.
  destruct leg1, leg2. eexists _, _, _, _, _, _. split; reflexivity.
Qed.

(** ** The flat branch of 0.2 *)

Lemma lookup_upd_ne (k j : string) (v : value) (d : gmap string value) :
  k ≠ j -> upd k v d !! j = d !! j.
Proof.
  intros H. rewrite lookup_upd. rewrite bool_decide_eq_false_2 by exact H.
  rewrite andb_false_r. reflexivity.
Qed.

Lemma lookup_upd_truthy (k : string) (v : value) (d : gmap string value) :
  truthy v = true -> upd k v d !! k = Some v.
Proof.
  intros H. rewrite lookup_upd, H. rewrite bool_decide_eq_true_2 by reflexivity.
  reflexivity.
Qed.

Lemma upd_falsy (k : string) (v : value) (d : gmap string value) :
  truthy v = false -> upd k v d = d.
Proof. intros H. unfold upd. rewrite H. reflexivity. Qed.

(** What [generate_initial_entry_info] returns once the sizing succeeds. *)
Lemma generate_initial_entry_info_run (ib : Venue) (sym : string) (inc : Q) (q : Z) :
  price_increment sym = Some inc ->
  set_position_size ib sym (get_atr_multiple ib sym (1 # 2)) = Ok q ->
  exists pl ps sl : Q,
    adjust_for_price_increments sym (long_dcu (get_indicators ib sym)) = VNum pl /\
    adjust_for_price_increments sym (long_dcl (get_indicators ib sym)) = VNum ps /\
    get_atr_multiple ib sym (1 # 2) = VNum sl /\
    V02.generate_initial_entry_info ib sym
      = Ok (dict [("long_entry",
                   order_entry "BUY" (inject_Z q) pl (sym +:+ "entryA") true (pl - sl));
                  ("short_entry",
                   order_entry "SELL" (inject_Z q) ps (sym +:+ "entryA") false (ps + sl))]).
Proof.
  intros Hinc Hq. eexists _, _, _.
  split; [apply adjust_known; exact Hinc |].
  split; [apply adjust_known; exact Hinc |].
  split; [unfold get_atr_multiple; apply adjust_known; exact Hinc |].
  unfold V02.generate_initial_entry_info. cbv zeta. rewrite Hq, bind_Ok.
  unfold get_atr_multiple. rewrite !(adjust_known _ _ _ Hinc).
  unfold value_sub, value_add. rewrite !as_num_VNum, !bind_Ok. reflexivity.
Qed.

Lemma truthy_order_entry (a : string) (q p : Q) (r : string) (b : bool) (s : Q) :
  truthy (order_entry a q p r b s) = true.
Proof. reflexivity. Qed.

(** The unit info the flat branch leaves, read at the two entries and at
    the exit price. *)
Lemma flat_unit_info_lookups (ui : gmap string value) (mx cur : Q) (L S : value) :
  truthy L = true -> truthy S = true ->
  let ui' :=
    upd "shortEntry" S (upd "longEntry" L
      (upd "isShort" (VBool false) (upd "isLong" (VBool false)
        (upd "exitAllPrice" (VBool false)
          (upd "currentUnitSize" (VNum cur) (upd "maxUnitSize" (VNum mx) ui)))))) in
  ui' !! "longEntry" = Some L /\ ui' !! "shortEntry" = Some S /\
  ui' !! "exitAllPrice" = ui !! "exitAllPrice".
Proof.
  intros HL HS ui'. unfold ui'. repeat split.
  - rewrite lookup_upd_ne by discriminate. apply lookup_upd_truthy. exact HL.
  - apply lookup_upd_truthy. exact HS.
  - rewrite !(upd_falsy _ (VBool false)) by reflexivity.
    rewrite !lookup_upd_ne by discriminate. reflexivity.
Qed.

(** X18.  The flat branch on a known instrument whose sizing succeeds and
    whose record is in the store: it cancels the instrument's open
    orders, forms one one-cancels-all group of the two entries and places
    six orders with ids n to n+5, all of the position size; the long entry
    buys above the upper channel and the short entry sells below the lower
    one; both exit legs trigger on the exitAllPrice the store already
    held, which this branch does not write; the tranche entries of the
    store stay as they were. *)
Theorem flat_branch_places_initial_entries (ib : Venue) (trades : list Trade)
    (m ud ui ei : gmap string value) (n : Z) (sym : string) (mx cur inc x : Q) (q : Z) :
  price_increment sym = Some inc ->
  set_position_size ib sym (get_atr_multiple ib sym (1 # 2)) = Ok q ->
  m !! sym = Some (VDict ud) ->
  ud !! "unitInfo" = Some (VDict ui) ->
  ud !! "entryInfo" = Some (VDict ei) ->
  ui !! "exitAllPrice" = Some (VNum x) ->
  exists store' e1 s1 x1 e2 s2 x2 oca,
    V02.flat_branch ib trades (VDict m) n sym mx cur
      = Done store' (n + 7)
          (map (fun t => CancelOrder (trade_order t)) (get_open_trades trades sym)
           ++ OneCancelsAll oca :: map (PlaceOrder sym) [e1; s1; x1; e2; s2; x2]) /\
    oca_orders oca = [e1; e2] /\
    map orderId [e1; s1; x1; e2; s2; x2]
      = [n; (n + 1)%Z; (n + 2)%Z; (n + 3)%Z; (n + 4)%Z; (n + 5)%Z] /\
    map totalQuantity [e1; s1; x1; e2; s2; x2] = replicate 6 (VNum (inject_Z q)) /\
    action e1 = VStr "BUY" /\ action e2 = VStr "SELL" /\
    conditions e1
      = [ {| isMore := VBool true;
             price := adjust_for_price_increments sym (long_dcu (get_indicators ib sym)) |} ] /\
    conditions e2
      = [ {| isMore := VBool false;
             price := adjust_for_price_increments sym (long_dcl (get_indicators ib sym)) |} ] /\
    conditions x1 = [ {| isMore := VBool false; price := VNum x |} ] /\
    conditions x2 = [ {| isMore := VBool true; price := VNum x |} ] /\
    store_at (Ok store') [sym; "entryInfo"] = Ok (VDict ei) /\
    store_at (Ok store') [sym; "unitInfo"; "exitAllPrice"] = Ok (VNum x).
Proof.
  intros Hinc Hq Hm Hui Hei Hx.
  destruct (generate_initial_entry_info_run ib sym inc q Hinc Hq)
    as (pl & ps & sl & Hpl & Hps & Hsl & Hgen).
  set (L := order_entry "BUY" (inject_Z q) pl (sym +:+ "entryA") true (pl - sl)) in *.
  set (S := order_entry "SELL" (inject_Z q) ps (sym +:+ "entryA") false (ps + sl)) in *.
  unfold V02.flat_branch, V02.clear_orders_from_json. cbv zeta.
  rewrite (clear_each_ok _ _ _ _ _ Hm Hei).
  rewrite Hgen, bind_Ok.
  change (getitem (dict [("long_entry", L); ("short_entry", S)]) "long_entry") with (Ok L).
  change (getitem (dict [("long_entry", L); ("short_entry", S)]) "short_entry") with (Ok S).
  rewrite !bind_Ok.
  rewrite (save_unit_info_result _ _ _ _ _ Hm Hui).
  set (kw := list_to_map _).
  change (passed kw "short_entry") with S. change (passed kw "long_entry") with L.
  change (passed kw "is_short") with (VBool false).
  change (passed kw "is_long") with (VBool false).
  change (passed kw "exit_all_price") with (VBool false).
  change (passed kw "current_unit_size") with (VNum cur).
  change (passed kw "max_unit_size") with (VNum mx).
  destruct (flat_unit_info_lookups ui mx cur L S
              (truthy_order_entry _ _ _ _ _ _) (truthy_order_entry _ _ _ _ _ _))
    as (HlL & HlS & HlX).
  set (ui' := upd "shortEntry" S _) in *.
  set (ud' := <["unitInfo" := VDict ui']> ud).
  set (store' := VDict (<[sym := VDict ud']> m)).
  assert (Hs1 : getitem store' sym = Ok (VDict ud'))
    by (apply getitem_dict, lookup_insert_eq).
  assert (Hs2 : getitem (VDict ud') "unitInfo" = Ok (VDict ui'))
    by (apply getitem_dict, lookup_insert_eq).
  assert (Hs3 : getitem (VDict ui') "exitAllPrice" = Ok (VNum x))
    by (apply getitem_dict; rewrite HlX; exact Hx).
  destruct (create_unit_leg_run store' sym "longEntry" n (VDict ud') L (VDict ui')
              (VStr "BUY") (VStr "MKT") (VNum (inject_Z q)) (VNum pl) (VNum (pl - sl))
              (VStr (sym +:+ "entryA")) (VNum x) (VBool true) (last1 (sym +:+ "entryA")))
    as (leg1 & Hleg1 & Hid1 & Hqa & Ha1 & Hc1 & _ & Hx1);
    try reflexivity; try assumption.
  { change (contains "long" "longEntry") with true. cbv iota.
    rewrite Hs2, bind_Ok. apply getitem_dict. exact HlL. }
  destruct (create_unit_leg_run store' sym "shortEntry" (n + 3) (VDict ud') S (VDict ui')
              (VStr "SELL") (VStr "MKT") (VNum (inject_Z q)) (VNum ps) (VNum (ps + sl))
              (VStr (sym +:+ "entryA")) (VNum x) (VBool false) (last1 (sym +:+ "entryA")))
    as (leg2 & Hleg2 & Hid2 & Hqb & Ha2 & Hc2 & _ & Hx2);
    try reflexivity; try assumption.
  { change (contains "long" "shortEntry") with false.
    change (contains "short" "shortEntry") with true. cbv iota.
    rewrite Hs2, bind_Ok. apply getitem_dict. exact HlS. }
  unfold V02.create_initial_entry_orders.
  rewrite build_bind_unfold, Hleg1, build_bind_unfold, Hleg2, build_getReqId.
  cbn [mret build_ret].
  destruct leg1 as [e1 s1 x1], leg2 as [e2 s2 x2].
  cbn [V02.leg_orders V02.entry_order V02.sl_order V02.exit_order app map] in *.
  injection Hid1 as Hi1 Hi2 Hi3. injection Hid2 as Hi4 Hi5 Hi6.
  injection Hqa as Hq1 Hq2 Hq3. injection Hqb as Hq4 Hq5 Hq6.
  exists store', e1, s1, x1, e2, s2, x2.
  eexists. split.
  { replace (n + 3 + 3 + 1)%Z with (n + 7)%Z by lia. reflexivity. }
  split; [reflexivity |].
  split.
  { rewrite Hi1, Hi2, Hi3, Hi4, Hi5, Hi6.
    replace (n + 3 + 1)%Z with (n + 4)%Z by lia.
    replace (n + 3 + 2)%Z with (n + 5)%Z by lia. reflexivity. }
  split.
  { rewrite Hq1, Hq2, Hq3, Hq4, Hq5, Hq6. reflexivity. }
  split; [exact Ha1 |]. split; [exact Ha2 |].
  split; [rewrite Hc1, Hpl; reflexivity |].
  split; [rewrite Hc2, Hps; reflexivity |].
  split; [rewrite Hx1; reflexivity |].
  split; [rewrite Hx2; reflexivity |].
  split.
  - cbn [store_at]. rewrite bind_Ok, Hs1, bind_Ok. apply getitem_dict.
    unfold ud'. rewrite lookup_insert_ne by discriminate. exact Hei.
  - cbn [store_at]. rewrite bind_Ok, Hs1, bind_Ok, Hs2, bind_Ok. exact Hs3.
Qed.

Lemma flat_branch_places_initial_entries_witness :
  exists store' e1 s1 x1 e2 s2 x2 oca,
    V02.flat_branch (sample_venue 0) sample_trades (VDict sample_store_map) 1 "EUR.USD"
      30000 20
      = Done store' (1 + 7)
          (map (fun t => CancelOrder (trade_order t))
               (get_open_trades sample_trades "EUR.USD")
           ++ OneCancelsAll oca :: map (PlaceOrder "EUR.USD") [e1; s1; x1; e2; s2; x2]) /\
    oca_orders oca = [e1; e2] /\
    map orderId [e1; s1; x1; e2; s2; x2]
      = [1; (1 + 1)%Z; (1 + 2)%Z; (1 + 3)%Z; (1 + 4)%Z; (1 + 5)%Z]%Z /\
    map totalQuantity [e1; s1; x1; e2; s2; x2] = replicate 6 (VNum (inject_Z 83333)) /\
    action e1 = VStr "BUY" /\ action e2 = VStr "SELL" /\
    conditions e1
      = [ {| isMore := VBool true;
             price := adjust_for_price_increments "EUR.USD"
                        (long_dcu (get_indicators (sample_venue 0) "EUR.USD")) |} ] /\
    conditions e2
      = [ {| isMore := VBool false;
             price := adjust_for_price_increments "EUR.USD"
                        (long_dcl (get_indicators (sample_venue 0) "EUR.USD")) |} ] /\
    conditions x1 = [ {| isMore := VBool false; price := VNum (105 # 100) |} ] /\
    conditions x2 = [ {| isMore := VBool true; price := VNum (105 # 100) |} ] /\
    store_at (Ok store') ["EUR.USD"; "entryInfo"] = Ok (VDict sample_entry_info) /\
    store_at (Ok store') ["EUR.USD"; "unitInfo"; "exitAllPrice"] = Ok (VNum (105 # 100)).
Proof.
  apply (flat_branch_places_initial_entries (sample_venue 0) sample_trades
           sample_store_map sample_unit_data sample_unit_info sample_entry_info
           1 "EUR.USD" 30000 20 (5 # 100000) (105 # 100) 83333); reflexivity.
Defined.

(** X19.  When the sizing of the initial entries raises, the flat branch
    has already cancelled every open order of the instrument; the store
    is as it was and nothing is placed. *)
Theorem flat_branch_cancels_before_sizing (ib : Venue) (trades : list Trade)
    (m ud ei : gmap string value) (n : Z) (sym : string) (mx cur : Q) (e : exn) :
  m !! sym = Some (VDict ud) ->
  ud !! "entryInfo" = Some (VDict ei) ->
  V02.generate_initial_entry_info ib sym = Raise e ->
  V02.flat_branch ib trades (VDict m) n sym mx cur
    = Failed (VDict m)
        (map (fun t => CancelOrder (trade_order t)) (get_open_trades trades sym)) e.
Proof.
  intros Hm Hei Hgen. unfold V02.flat_branch, V02.clear_orders_from_json. cbv zeta.
  rewrite (clear_each_ok _ _ _ _ _ Hm Hei), Hgen. reflexivity.
Qed.

Lemma flat_branch_cancels_before_sizing_witness :
  V02.flat_branch quiet_venue sample_trades (VDict gbp_store_map) 1 "GBP.JPY" 0 0
    = Failed (VDict gbp_store_map)
        (map (fun t => CancelOrder (trade_order t))
             (get_open_trades sample_trades "GBP.JPY")) ZeroDivisionError.
Proof.
  apply (flat_branch_cancels_before_sizing quiet_venue sample_trades gbp_store_map
           sample_unit_data sample_entry_info 1 "GBP.JPY" 0 0 ZeroDivisionError);
    reflexivity.
Defined.

(** The cancelled order of the sample is the GBP.JPY one only. *)
Example get_open_trades_sample :
  map (fun t => orderId (trade_order t)) (get_open_trades sample_trades "GBP.JPY") = [11%Z] /\
  get_open_trades sample_trades "AUD.CAD" = [].
Proof. split; reflexivity. Qed.

(** ** The branch for a unit that is not full, and the full unit *)

(** X20.  The branch of 0.2 for a unit that is not full, on a known
    instrument whose record is in the store: it first rewrites the unit
    info (size, flags, exit price), and then stops with an exception
    before any order is cancelled or placed.  When the first tranche has a
    recorded quantity the exception is TypeError (the call of
    [get_open_trades] lacks its argument); when that quantity is 0 it is
    KeyError, because longEntry and shortEntry are looked up beside
    unitInfo instead of inside it. *)
Theorem building_branch_stops (ib : Venue) (m ud ui ei ea : gmap string value)
    (sym : string) (cur inc : Q) (is_long is_short : bool) (qty : value) :
  price_increment sym = Some inc ->
  is_long || is_short = true ->
  m !! sym = Some (VDict ud) ->
  ud !! "unitInfo" = Some (VDict ui) ->
  ud !! "entryInfo" = Some (VDict ei) ->
  ei !! "entryA" = Some (VDict ea) ->
  ea !! "totalQuantity" = Some qty ->
  ud !! "longEntry" = None ->
  ud !! "shortEntry" = None ->
  exists xp store',
    (if is_long then adjust_for_price_increments sym (short_dcl (get_indicators ib sym))
     else adjust_for_price_increments sym (short_dcu (get_indicators ib sym))) = VNum xp /\
    V02.save_unit_info_to_json (VDict m) sym
      (list_to_map [("current_unit_size", VNum cur);
                    ("is_short", VBool is_short);
                    ("is_long", VBool is_long);
                    ("exit_all_price", VNum xp)]) = Ok store' /\
    V02.building_branch ib (VDict m) sym cur is_long is_short
      = (store',
         if eq_zero qty
         then KeyError (if is_long then "longEntry" else "shortEntry")
         else TypeError).
Proof.
  intros Hinc Hdir Hm Hui Hei Hea Hqty HnoL HnoS.
  assert (He : forall v, (<["unitInfo" := v]> ud) !! "entryInfo" = Some (VDict ei))
    by (intros v; rewrite lookup_insert_ne by discriminate; exact Hei).
  unfold V02.building_branch. cbv zeta.
  destruct is_long; [| destruct is_short; [| discriminate Hdir]]; cbv iota.
  all: rewrite (adjust_known _ _ _ Hinc); eexists; eexists;
    (split; [reflexivity |]);
    cbn [py_is negb py_assert]; rewrite bind_Ok;
    rewrite (save_unit_info_result _ _ _ _ _ Hm Hui);
    (split; [reflexivity |]); f_equal;
    rewrite (getitem_dict _ sym _ (lookup_insert_eq _ _ _)), bind_Ok;
    rewrite (getitem_dict _ _ _ (He _)), bind_Ok;
    rewrite (getitem_dict _ _ _ Hea), bind_Ok, (getitem_dict _ _ _ Hqty), bind_Ok;
    (destruct (eq_zero qty); [| reflexivity]);
    unfold getitem at 1; rewrite lookup_insert_ne by discriminate.
  - rewrite HnoL. reflexivity.
  - rewrite HnoS. reflexivity.
Qed.

Lemma building_branch_stops_witness :
  exists xp store',
    adjust_for_price_increments "EUR.USD"
      (short_dcl (get_indicators (sample_venue 15000) "EUR.USD")) = VNum xp /\
    V02.save_unit_info_to_json (VDict sample_store_map) "EUR.USD"
      (list_to_map [("current_unit_size", VNum 15000);
                    ("is_short", VBool false);
                    ("is_long", VBool true);
                    ("exit_all_price", VNum xp)]) = Ok store' /\
    V02.building_branch (sample_venue 15000) (VDict sample_store_map) "EUR.USD" 15000
      true false
      = (store', if eq_zero (VNum 15000) then KeyError "longEntry" else TypeError).
Proof.
  apply (building_branch_stops (sample_venue 15000) sample_store_map sample_unit_data
           sample_unit_info sample_entry_info sample_entry_a "EUR.USD" 15000
           (5 # 100000) true false (VNum 15000)); reflexivity.
Defined.




(** ** Clearing the unit info, and saving it twice *)

(** X10.  On a store that holds the instrument's unit info,
    [clear_unit_info_from_json] succeeds and resets six keys of it: both
    sizes to 0, both direction flags to the empty string and both initial
    entries to the blank order.  Every other key of the unit info, the
    exit price among them, keeps its value, and so does everything else in
    the store. *)
Theorem clear_unit_info_resets (m ud ui : gmap string value) (sym : string) :
  m !! sym = Some (VDict ud) ->
  ud !! "unitInfo" = Some (VDict ui) ->
  exists ui' : gmap string value,
    V02.clear_unit_info_from_json (VDict m) sym
      = Ok (VDict (<[sym := VDict (<["unitInfo" := VDict ui']> ud)]> m)) /\
    ui' !! "maxUnitSize" = Some (VNum 0) /\
    ui' !! "currentUnitSize" = Some (VNum 0) /\
    ui' !! "isLong" = Some (VStr "") /\
    ui' !! "isShort" = Some (VStr "") /\
    ui' !! "longEntry" = Some V02.blank_order /\
    ui' !! "shortEntry" = Some V02.blank_order /\
    ui' !! "exitAllPrice" = ui !! "exitAllPrice" /\
    (forall k,
        k ∉ ["maxUnitSize"; "currentUnitSize"; "isLong"; "isShort"; "longEntry"; "shortEntry"] ->
        ui' !! k = ui !! k).
Proof.
  intros Hm Hui. unfold V02.clear_unit_info_from_json. cbv zeta.
  rewrite (getitem_dict _ _ _ Hm), bind_Ok, (getitem_dict _ _ _ Hui), bind_Ok.
  cbn [setitem]. rewrite !bind_Ok.
  eexists. split; [reflexivity |].
  repeat (split; [by simplify_map_eq |]).
  intros k Hk.
  repeat (rewrite lookup_insert_ne;
          [| intros <-; apply Hk; set_solver]).
  reflexivity.
Qed.

Lemma clear_unit_info_resets_witness :
  exists ui' : gmap string value,
    V02.clear_unit_info_from_json (VDict sample_store_map) "EUR.USD"
      = Ok (VDict (<["EUR.USD" := VDict (<["unitInfo" := VDict ui']> sample_unit_data)]>
                     sample_store_map)) /\
    ui' !! "maxUnitSize" = Some (VNum 0) /\
    ui' !! "currentUnitSize" = Some (VNum 0) /\
    ui' !! "isLong" = Some (VStr "") /\
    ui' !! "isShort" = Some (VStr "") /\
    ui' !! "longEntry" = Some V02.blank_order /\
    ui' !! "shortEntry" = Some V02.blank_order /\
    ui' !! "exitAllPrice" = sample_unit_info !! "exitAllPrice" /\
    (forall k,
        k ∉ ["maxUnitSize"; "currentUnitSize"; "isLong"; "isShort"; "longEntry"; "shortEntry"] ->
        ui' !! k = sample_unit_info !! k).
Proof.
  apply (clear_unit_info_resets sample_store_map sample_unit_data sample_unit_info
           "EUR.USD"); reflexivity.
Defined.

(** X11.  A unit whose info has been cleared has no remaining-orders
    count: on the cleared store the computation of [run] divides by the
    zero maxUnitSize and raises ZeroDivisionError. *)
Theorem cleared_unit_has_no_count (m ud ui : gmap string value) (sym : string) :
  m !! sym = Some (VDict ud) ->
  ud !! "unitInfo" = Some (VDict ui) ->
  exists store' unit_data,
    V02.clear_unit_info_from_json (VDict m) sym = Ok store' /\
    getitem store' sym = Ok unit_data /\
    V02.remaining_orders_of unit_data = Raise ZeroDivisionError.
Proof.
  intros Hm Hui. unfold V02.clear_unit_info_from_json. cbv zeta.
  rewrite (getitem_dict _ _ _ Hm), bind_Ok, (getitem_dict _ _ _ Hui), bind_Ok.
  cbn [setitem]. rewrite !bind_Ok.
  eexists _, _. split; [reflexivity |].
  split; [apply getitem_dict, lookup_insert_eq |].
  unfold V02.remaining_orders_of.
  rewrite (getitem_dict _ "unitInfo" _ (lookup_insert_eq _ _ _)), bind_Ok.
  erewrite (getitem_dict _ "currentUnitSize") by (by simplify_map_eq).
  rewrite bind_Ok.
  erewrite (getitem_dict _ "maxUnitSize") by (by simplify_map_eq).
  rewrite bind_Ok. reflexivity.
Qed.

Lemma cleared_unit_has_no_count_witness :
  exists store' unit_data,
    V02.clear_unit_info_from_json (VDict sample_store_map) "EUR.USD" = Ok store' /\
    getitem store' "EUR.USD" = Ok unit_data /\
    V02.remaining_orders_of unit_data = Raise ZeroDivisionError.
Proof.
  apply (cleared_unit_has_no_count sample_store_map sample_unit_data sample_unit_info
           "EUR.USD"); reflexivity.
Defined.

(** X12.  On a cleared store [generate_compound_entry_info] fails its
    assertion on the direction flags, whatever the venue and the tags:
    both flags are the empty string, one and the same object. *)
Theorem cleared_unit_fails_direction_assertion (ib : Venue) (m ud ui : gmap string value)
    (sym : string) (tags : list string) :
  m !! sym = Some (VDict ud) ->
  ud !! "unitInfo" = Some (VDict ui) ->
  exists store',
    V02.clear_unit_info_from_json (VDict m) sym = Ok store' /\
    V02.generate_compound_entry_info ib store' sym tags
      = Raise (AssertionError "Unit cannot be both long and short simultaneously!").
Proof.
  intros Hm Hui. unfold V02.clear_unit_info_from_json. cbv zeta.
  rewrite (getitem_dict _ _ _ Hm), bind_Ok, (getitem_dict _ _ _ Hui), bind_Ok.
  cbn [setitem]. rewrite !bind_Ok.
  eexists. split; [reflexivity |].
  unfold V02.generate_compound_entry_info.
  rewrite (getitem_dict _ sym _ (lookup_insert_eq _ _ _)), bind_Ok. cbv zeta.
  rewrite (getitem_dict _ "unitInfo" _ (lookup_insert_eq _ _ _)), bind_Ok.
  erewrite (getitem_dict _ "maxUnitSize") by (by simplify_map_eq).
  rewrite bind_Ok, as_num_VNum, bind_Ok.
  erewrite (getitem_dict _ "isLong") by (by simplify_map_eq).
  rewrite bind_Ok.
  erewrite (getitem_dict _ "isShort") by (by simplify_map_eq).
  rewrite bind_Ok. reflexivity.
Qed.

Lemma cleared_unit_fails_direction_assertion_witness :
  exists store',
    V02.clear_unit_info_from_json (VDict sample_store_map) "EUR.USD" = Ok store' /\
    V02.generate_compound_entry_info (sample_venue 15000) store' "EUR.USD" ["entryB"]
      = Raise (AssertionError "Unit cannot be both long and short simultaneously!").
Proof.
  apply (cleared_unit_fails_direction_assertion (sample_venue 15000) sample_store_map
           sample_unit_data sample_unit_info "EUR.USD" ["entryB"]); reflexivity.
Defined.

Lemma upd_upd_same (k : string) (v : value) (d : gmap string value) :
  upd k v (upd k v d) = upd k v d.
Proof. unfold upd. destruct (truthy v); [apply insert_insert_eq | reflexivity]. Qed.

Lemma upd_comm (k1 k2 : string) (v1 v2 : value) (d : gmap string value) :
  k1 ≠ k2 -> upd k1 v1 (upd k2 v2 d) = upd k2 v2 (upd k1 v1 d).
Proof.
  intros H. unfold upd. destruct (truthy v1), (truthy v2); try reflexivity.
  apply insert_insert_ne. exact H.
Qed.

(** X13.  Saving the same unit info twice is the same as saving it once. *)
Theorem save_unit_info_idempotent (m ud ui : gmap string value) (sym : string)
    (kwargs : gmap string value) :
  m !! sym = Some (VDict ud) ->
  ud !! "unitInfo" = Some (VDict ui) ->
  exists store',
    V02.save_unit_info_to_json (VDict m) sym kwargs = Ok store' /\
    V02.save_unit_info_to_json store' sym kwargs = Ok store'.
Proof.
  intros Hm Hui. rewrite (save_unit_info_result _ _ _ _ _ Hm Hui).
  eexists. split; [reflexivity |].
  erewrite save_unit_info_result;
    [| apply lookup_insert_eq | apply lookup_insert_eq].
  rewrite !insert_insert_eq. do 6 f_equal.
  apply map_eq. intros j. rewrite !lookup_upd.
  repeat match goal with
         | |- context [truthy ?v && bool_decide (?a = ?b)] =>
             destruct (truthy v && bool_decide (a = b))
         end; reflexivity.
Qed.

Lemma save_unit_info_idempotent_witness :
  exists store',
    V02.save_unit_info_to_json (VDict sample_store_map) "EUR.USD"
      (list_to_map [("current_unit_size", VNum 25000); ("is_long", VBool true)])
      = Ok store' /\
    V02.save_unit_info_to_json store' "EUR.USD"
      (list_to_map [("current_unit_size", VNum 25000); ("is_long", VBool true)])
      = Ok store'.
Proof.
  apply (save_unit_info_idempotent sample_store_map sample_unit_data sample_unit_info
           "EUR.USD"); reflexivity.
Defined.

(** ** Remaining orders: order and tranche boundaries *)

(** X14.  For a positive maxUnitSize the count of remaining orders does
    not grow with the recorded size: of two sizes, the larger gets the
    smaller or equal count whenever both computations return. *)
Theorem remaining_orders_antitone (mx cur1 cur2 : Q) (v1 v2 : Z) :
  0 < mx -> cur1 <= cur2 ->
  V02.remaining_orders mx cur1 = Ok v1 ->
  V02.remaining_orders mx cur2 = Ok v2 ->
  (v2 <= v1)%Z.
Proof.
  intros Hmx Hle. rewrite !remaining_orders_unfold.
  destruct (Qeq_bool mx 0); [discriminate |]. cbv zeta.
  destruct (negb _); [discriminate |]. destruct (negb _); [discriminate |].
  intros [= <-].
  destruct (negb _); [discriminate |]. destruct (negb _); [discriminate |].
  intros [= <-].
  apply py_round_mono. change (mx / 4) with (mx * (1 # 4)).
  apply Qmult_le_compat_r; [lra |].
  apply Qlt_le_weak, Qinv_lt_0_compat. lra.
Qed.

Lemma remaining_orders_antitone_witness :
  V02.remaining_orders 40000 10000 = Ok 3%Z /\
  V02.remaining_orders 40000 30000 = Ok 1%Z /\ (1 <= 3)%Z.
Proof.
  split; [reflexivity | split; [reflexivity |]].
  apply (remaining_orders_antitone 40000 10000 30000 3 1); reflexivity || discriminate.
Defined.

(** X15.  With k of the four equal tranches recorded (a size of k times
    maxUnitSize/4, maxUnitSize positive), the computation returns 4 - k
    for k = 1, 2, 3; with none recorded it fails the assertion on < 4 and
    with all four the assertion on > 0. *)
Theorem remaining_orders_at_tranches (mx : Q) (k : Z) :
  0 < mx -> (0 <= k <= 4)%Z ->
  V02.remaining_orders mx (inject_Z k * (mx / 4))
    = if (k =? 0)%Z then Raise (AssertionError V02.msg_lt4)
      else if (k =? 4)%Z then Raise (AssertionError V02.msg_gt0)
      else Ok (4 - k)%Z.
Proof.
  intros Hmx Hk. rewrite remaining_orders_unfold.
  destruct (Qeq_bool mx 0) eqn:E.
  { apply Qeq_bool_iff in E. lra. }
  cbv zeta.
  assert (Hr : py_round ((mx - inject_Z k * (mx / 4)) / (mx / 4)) = (4 - k)%Z).
  { rewrite <- (py_round_inject_Z (4 - k)). apply py_round_comp.
    unfold Z.sub. rewrite inject_Z_plus, inject_Z_opp.
    change (inject_Z 4) with 4. field. lra. }
  rewrite Hr.
  assert (Hc : (k = 0 \/ k = 1 \/ k = 2 \/ k = 3 \/ k = 4)%Z) by lia.
  destruct Hc as [-> | [-> | [-> | [-> | ->]]]]; reflexivity.
Qed.

Lemma remaining_orders_at_tranches_witness :
  V02.remaining_orders 40000 (inject_Z 2 * (40000 / 4))
    = if (2 =? 0)%Z then Raise (AssertionError V02.msg_lt4)
      else if (2 =? 4)%Z then Raise (AssertionError V02.msg_gt0)
      else Ok (4 - 2)%Z.
Proof.
  apply (remaining_orders_at_tranches 40000 2); [reflexivity | lia].
Defined.

(** ** whipsaw_0.1.py: the legs of [go_long] and [go_short], the entry count *)

Lemma as_num_not_ERROR (v : value) (a : Q) : as_num v = Ok a -> is_ERROR v = false.
Proof. destruct v; try discriminate; reflexivity. Qed.

Lemma sizing_kwargs_sl (ib : Venue) (sym : string) (kwargs : gmap string value)
    (sl tq : value) :
  V01.sizing_kwargs ib sym kwargs = Ok (sl, tq) ->
  sl = kwargs_get kwargs "sl_size" (get_atr_multiple ib sym (1 # 2)).
Proof.
  unfold V01.sizing_kwargs. destruct (set_position_size _ _ _); [| discriminate].
  rewrite bind_Ok. intros [= <- _]. reflexivity.
Qed.

(** X16.  Whenever [go_long] returns: asked for the exit-all leg, it
    gives one transmitted SELL order without a parent; otherwise it gives
    an entry, a stop and an exit with three consecutive ids, BUY then two
    SELL orders that name the entry as parent and carry its quantity, only
    the exit transmitted, and the stop triggers below the entry price by
    exactly the stop size in use. *)
Theorem go_long_shape (ib : Venue) (sym : string) (kwargs : gmap string value) (n : Z) :
  match V01.go_long ib sym kwargs n with
  | Ok (orders, n') =>
      if truthy (kwargs_get kwargs "is_exit_all" (VBool false)) then
        exists o, orders = [o] /\ n' = (n + 1)%Z /\ orderId o = n /\
                  action o = VStr "SELL" /\ transmit o = true /\ parentId o = None
      else
        exists e s x pc (a b : Q),
          orders = [e; s; x] /\ n' = (n + 3)%Z /\
          map orderId orders = [n; (n + 1)%Z; (n + 2)%Z] /\
          map action orders = [VStr "BUY"; VStr "SELL"; VStr "SELL"] /\
          map parentId orders = [None; Some (VNum (inject_Z n)); Some (VNum (inject_Z n))] /\
          map transmit orders = [false; false; true] /\
          totalQuantity s = totalQuantity e /\ totalQuantity x = totalQuantity e /\
          as_num pc = Ok a /\
          as_num (kwargs_get kwargs "sl_size" (get_atr_multiple ib sym (1 # 2))) = Ok b /\
          conditions e = [ {| isMore := VBool true; price := pc |} ] /\
          conditions s = [ {| isMore := VBool false; price := VNum (a - b) |} ]
  | Raise _ => True
  end.
Proof.
  unfold V01.go_long.
  destruct (V01.sizing_kwargs ib sym kwargs) as [[sl tq] | e] eqn:Hsz; [| exact I].
  rewrite build_bind_Ok. apply sizing_kwargs_sl in Hsz. subst sl.
  step_lift.
  destruct (truthy (kwargs_get kwargs "is_exit_all" (VBool false))).
  - rewrite build_getReqId. eexists. repeat split; reflexivity.
  - match goal with
    | |- context [(lift ?r ≫= ?f) ?n] =>
        destruct r as [[ref pc] | e] eqn:Hpc; [rewrite build_bind_Ok | exact I]
    end.
    rewrite !build_getReqId.
    destruct (V01.py_sub pc _) as [slp | e] eqn:Hsub; [| exact I].
    rewrite build_bind_Ok, build_getReqId.
    unfold V01.py_sub in Hsub.
    destruct (as_num pc) as [pa | e] eqn:Ha; [| discriminate Hsub].
    rewrite bind_Ok in Hsub.
    destruct (as_num (kwargs_get kwargs "sl_size" _)) as [pb | e] eqn:Hb;
      [| discriminate Hsub].
    rewrite bind_Ok in Hsub. injection Hsub as <-.
    replace (n + 1 + 1 + 1)%Z with (n + 3)%Z by lia.
    replace (n + 1 + 1)%Z with (n + 2)%Z by lia.
    eexists _, _, _, pc, pa, pb.
    repeat split; try reflexivity; try assumption.
    transitivity (if negb (is_ERROR pc) && true
                  then [ {| isMore := VBool true; price := pc |} ] else []);
      [reflexivity | rewrite (as_num_not_ERROR _ _ Ha); reflexivity].
Qed.

(** X17.  Whenever [go_short] returns: asked for the exit-all leg, it
    gives one transmitted BUY order without a parent; otherwise it gives
    an entry, a stop and an exit with three consecutive ids, SELL then two
    BUY orders that name the entry as parent and carry its quantity, only
    the exit transmitted, and the stop triggers above the entry price by
    exactly the stop size in use. *)
Theorem go_short_shape (ib : Venue) (sym : string) (kwargs : gmap string value) (n : Z) :
  match V01.go_short ib sym kwargs n with
  | Ok (orders, n') =>
      if truthy (kwargs_get kwargs "is_exit_all" (VBool false)) then
        exists o, orders = [o] /\ n' = (n + 1)%Z /\ orderId o = n /\
                  action o = VStr "BUY" /\ transmit o = true /\ parentId o = None
      else
        exists e s x pc (a b : Q),
          orders = [e; s; x] /\ n' = (n + 3)%Z /\
          map orderId orders = [n; (n + 1)%Z; (n + 2)%Z] /\
          map action orders = [VStr "SELL"; VStr "BUY"; VStr "BUY"] /\
          map parentId orders = [None; Some (VNum (inject_Z n)); Some (VNum (inject_Z n))] /\
          map transmit orders = [false; false; true] /\
          totalQuantity s = totalQuantity e /\ totalQuantity x = totalQuantity e /\
          as_num pc = Ok a /\
          as_num (kwargs_get kwargs "sl_size" (get_atr_multiple ib sym (1 # 2))) = Ok b /\
          conditions e = [ {| isMore := VBool false; price := pc |} ] /\
          conditions s = [ {| isMore := VBool true; price := VNum (a + b) |} ]
  | Raise _ => True
  end.
Proof.
  unfold V01.go_short.
  destruct (V01.sizing_kwargs ib sym kwargs) as [[sl tq] | e] eqn:Hsz; [| exact I].
  rewrite build_bind_Ok. apply sizing_kwargs_sl in Hsz. subst sl.
  step_lift.
  destruct (truthy (kwargs_get kwargs "is_exit_all" (VBool false))).
  - rewrite build_getReqId. eexists. repeat split; reflexivity.
  - match goal with
    | |- context [(lift ?r ≫= ?f) ?n] =>
        destruct r as [[ref pc] | e] eqn:Hpc; [rewrite build_bind_Ok | exact I]
    end.
    rewrite !build_getReqId.
    destruct (V01.py_add pc _) as [slp | e] eqn:Hadd; [| exact I].
    rewrite build_bind_Ok, build_getReqId.
    unfold V01.py_add in Hadd.
    destruct (as_num pc) as [pa | e] eqn:Ha; [| discriminate Hadd].
    rewrite bind_Ok in Hadd.
    destruct (as_num (kwargs_get kwargs "sl_size" _)) as [pb | e] eqn:Hb;
      [| discriminate Hadd].
    rewrite bind_Ok in Hadd. injection Hadd as <-.
    replace (n + 1 + 1 + 1)%Z with (n + 3)%Z by lia.
    replace (n + 1 + 1)%Z with (n + 2)%Z by lia.
    eexists _, _, _, pc, pa, pb.
    repeat split; try reflexivity; try assumption.
    transitivity (if negb (is_ERROR pc) && true
                  then [ {| isMore := VBool false; price := pc |} ] else []);
      [reflexivity | rewrite (as_num_not_ERROR _ _ Ha); reflexivity].
Qed.

(** X22.  The index of the next entry in 0.1 lies between 1 and 4 and,
    for a non-negative max_unit_size, does not decrease as the risked
    amount grows.  The short loop visits 4 - i offsets, the count [run]
    logs, and the long loop visits one more: at least one compound leg is
    built for a long unit even when the log says none can be placed. *)
Theorem next_entry_counts (r1 r2 mx : Q) :
  (1 <= V01.next_entry r1 mx <= 4)%Z /\
  length (V01.short_offsets (V01.next_entry r1 mx))
    = Z.to_nat (4 - V01.next_entry r1 mx) /\
  length (V01.long_offsets (V01.next_entry r1 mx))
    = S (length (V01.short_offsets (V01.next_entry r1 mx))) /\
  (0 <= mx -> r1 <= r2 -> (V01.next_entry r1 mx <= V01.next_entry r2 mx)%Z).
Proof.
  assert (Hrange : forall r, (1 <= V01.next_entry r mx <= 4)%Z).
  { intros r. unfold V01.next_entry.
    repeat match goal with |- context [if ?b then _ else _] => destruct b end; lia. }
  split; [apply Hrange |].
  split; [unfold V01.short_offsets; apply length_seqZ |].
  split.
  { unfold V01.long_offsets, V01.short_offsets. rewrite !length_seqZ.
    specialize (Hrange r1). lia. }
  intros Hmx Hle. unfold V01.next_entry.
  destruct (Qltb r1 (mx * (25 # 100))) eqn:A1; destruct (Qltb r2 (mx * (25 # 100))) eqn:B1;
  destruct (Qltb r1 (mx * (5 # 10))) eqn:A2; destruct (Qltb r2 (mx * (5 # 10))) eqn:B2;
  destruct (Qltb r1 (mx * (75 # 100))) eqn:A3; destruct (Qltb r2 (mx * (75 # 100))) eqn:B3;
    try lia; exfalso;
    repeat match goal with
           | H : Qltb _ _ = true |- _ => apply Qltb_lt in H
           | H : Qltb _ _ = false |- _ => apply Qltb_ge in H
           end; lra.
Qed.

Lemma next_entry_counts_witness :
  (1 <= V01.next_entry 1700 2000 <= 4)%Z /\
  length (V01.short_offsets (V01.next_entry 1700 2000))
    = Z.to_nat (4 - V01.next_entry 1700 2000) /\
  length (V01.long_offsets (V01.next_entry 1700 2000))
    = S (length (V01.short_offsets (V01.next_entry 1700 2000))) /\
  (V01.next_entry 1700 2000 <= V01.next_entry 1900 2000)%Z.
Proof.
  destruct (next_entry_counts 1700 1900 2000) as (H1 & H2 & H3 & H4).
  split; [exact H1 |]. split; [exact H2 |]. split; [exact H3 |].
  apply H4; discriminate.
Defined.

(** Three quarters of the unit risked: the log says 0 more orders, the
    long loop still visits offset 4, the short loop none. *)
Example next_entry_last_quarter :
  V01.next_entry 1700 2000 = 4%Z /\
  V01.long_offsets 4 = [4%Z] /\ V01.short_offsets 4 = [].
Proof. repeat split; reflexivity. Qed.

(** ** Witnesses of the general lemmas above, and two edge cases *)

Lemma remaining_orders_short_fails_witness :
  V02.remaining_orders 40000 (-15000) = Raise (AssertionError V02.msg_lt4).
Proof. apply (remaining_orders_short_fails 40000 (-15000)); reflexivity. Defined.

Lemma compound_entry_long_witness :
  exists e : gmap string value,
    V02.compound_entry (sample_venue 15000) "EUR.USD" (VDict sample_unit_data)
      (VNum ((5 # 100000) * inject_Z 120)) 10000 (VBool true) (VBool false) "entryB"
      = Ok (VDict e) /\
    e !! "priceCondition" = Some (VNum ((12 # 10) + 1 * ((5 # 100000) * inject_Z 120))) /\
    e !! "slPrice"
      = Some (VNum ((12 # 10) + 1 * ((5 # 100000) * inject_Z 120)
                    - (5 # 100000) * inject_Z 120)) /\
    e !! "totalQuantity" = Some (VNum (inject_Z 10000)).
Proof.
  apply (compound_entry_long (sample_venue 15000) "EUR.USD" sample_unit_data
           sample_entry_info sample_entry_a (12 # 10) ((5 # 100000) * inject_Z 120)
           10000 "entryB" "entryA" 1);
    [unfold compound_table; set_solver | reflexivity ..].
Defined.

Lemma compound_entry_short_witness :
  exists e : gmap string value,
    V02.compound_entry (sample_venue (-15000)) "EUR.USD" (VDict sample_unit_data)
      (VNum ((5 # 100000) * inject_Z 120)) 10000 (VBool false) (VBool true) "entryB"
      = Ok (VDict e) /\
    e !! "priceCondition" = Some (VNum (- (12 # 10) - 1 * ((5 # 100000) * inject_Z 120))) /\
    e !! "slPrice"
      = Some (VNum (- (12 # 10) - 1 * ((5 # 100000) * inject_Z 120)
                    + (5 # 100000) * inject_Z 120)) /\
    e !! "totalQuantity" = Some (VNum (inject_Z 10000)).
Proof.
  apply (compound_entry_short (sample_venue (-15000)) "EUR.USD" sample_unit_data
           sample_entry_info sample_entry_a (12 # 10) ((5 # 100000) * inject_Z 120)
           10000 "entryB" "entryA" 1);
    [unfold compound_table; set_solver | reflexivity ..].
Defined.

Lemma clear_json_data_blanks_witness :
  V01.clear_json_data (VDict sample_store_map) "EUR.USD"
    = Ok (VDict (<["EUR.USD" := VDict ((fun _ => V01.blank_entry) <$> sample_unit_data)]>
                   sample_store_map)).
Proof.
  apply (clear_json_data_blanks sample_store_map sample_unit_data "EUR.USD"). reflexivity.
Defined.

Lemma price_increment_valid (sym : string) :
  valid_symbol sym = match price_increment sym with Some _ => true | None => false end.
Proof.
  unfold valid_symbol, price_increment.
  destruct (String.eqb sym "EUR.USD"), (String.eqb sym "GBP.JPY"),
    (String.eqb sym "AUD.CAD"); reflexivity.
Qed.

(** X27.  An instrument without a tick size ends a round of either
    revision in its variable setup, before any order is cancelled or
    placed and before the store is written, with different exceptions:
    0.1 multiplies the cash balance by the [None] stop size first and
    raises TypeError, 0.2 asks for the exchange rate first and fails the
    assertion on the pair. *)
Theorem unknown_instrument_errors (ib : Venue) (trades : list Trade) (store : value)
    (n : Z) (sym : string) :
  price_increment sym = None ->
  V01.risked ib sym = Raise TypeError /\
  V01.setup_and_cancel ib trades sym = ([], Raise TypeError) /\
  V02.initial_variable_setup ib sym = Raise (AssertionError "Invalid Currency!") /\
  V02.body ib trades store n sym = Failed store [] (AssertionError "Invalid Currency!").
Proof.
  intros H.
  assert (H1 : V01.risked ib sym = Raise TypeError).
  { unfold V01.risked, get_atr_multiple, adjust_for_price_increments. rewrite H.
    reflexivity. }
  assert (H2 : V02.initial_variable_setup ib sym
               = Raise (AssertionError "Invalid Currency!")).
  { unfold V02.initial_variable_setup, get_base_exchange.
    rewrite price_increment_valid, H. reflexivity. }
  split; [exact H1 |]. split; [| split; [exact H2 |]].
  - unfold V01.setup_and_cancel, V01.initial_variable_setup. rewrite H1. reflexivity.
  - unfold V02.body. rewrite H2. reflexivity.
Qed.

Lemma unknown_instrument_errors_witness :
  V01.risked (sample_venue 0) "USD.JPY" = Raise TypeError /\
  V01.setup_and_cancel (sample_venue 0) sample_trades "USD.JPY" = ([], Raise TypeError) /\
  V02.initial_variable_setup (sample_venue 0) "USD.JPY"
    = Raise (AssertionError "Invalid Currency!") /\
  V02.body (sample_venue 0) sample_trades long_store 1 "USD.JPY"
    = Failed long_store [] (AssertionError "Invalid Currency!").
Proof.
  apply (unknown_instrument_errors (sample_venue 0) sample_trades long_store 1 "USD.JPY").
  reflexivity.
Defined.

Lemma equity_fold_skip (l : list AccountValue) (mult acc : Q) :
  Forall (fun v => String.eqb (av_currency v) "BASE" && String.eqb (av_tag v) "CashBalance"
                   = false) l ->
  fold_left (fun max_equity_at_risk v =>
               if String.eqb (av_currency v) "BASE" && String.eqb (av_tag v) "CashBalance"
               then av_value v * mult else max_equity_at_risk) l acc = acc.
Proof.
  intros Hl. revert acc. induction Hl as [| v l Hv _ IH]; intros acc; [reflexivity |].
  cbn [fold_left]. rewrite Hv. apply IH.
Qed.

(** X28.  The equity at risk is the multiplier times the last
    BASE/CashBalance row of the account summary, whatever comes before
    it, and 0 when there is no such row; the max_unit_size of 0.1 is the
    same figure at 2%. *)
Theorem max_equity_last_row (ib : Venue) (l1 l2 : list AccountValue) (a : AccountValue)
    (mult : Q) :
  Forall (fun v => String.eqb (av_currency v) "BASE" && String.eqb (av_tag v) "CashBalance"
                   = false) l2 ->
  (accountSummary ib = l1 ++ a :: l2 ->
   String.eqb (av_currency a) "BASE" && String.eqb (av_tag a) "CashBalance" = true ->
   V02.get_max_equity_at_risk ib mult = av_value a * mult /\
   V01.max_unit_size ib = av_value a * (2 # 100)) /\
  (accountSummary ib = l2 ->
   V02.get_max_equity_at_risk ib mult = 0 /\ V01.max_unit_size ib = 0).
Proof.
  intros Hl2. unfold V02.get_max_equity_at_risk, V01.max_unit_size. split.
  - intros -> Ha. rewrite !fold_left_app. cbn [fold_left]. rewrite Ha.
    split; apply equity_fold_skip; exact Hl2.
  - intros ->. split; apply equity_fold_skip; exact Hl2.
Qed.

Lemma max_equity_last_row_witness :
  V02.get_max_equity_at_risk (sample_venue 0) (2 # 100) = 100000 * (2 # 100) /\
  V01.max_unit_size (sample_venue 0) = 100000 * (2 # 100).
Proof.
  refine (proj1 (max_equity_last_row (sample_venue 0) [] []
                   {| av_tag := "CashBalance"; av_currency := "BASE"; av_value := 100000 |}
                   (2 # 100) _) _ _); [constructor | reflexivity | reflexivity].
Defined.
